(** * COREP CR1 assistant: retrieval and validation core

    A shallow embedding of [src/retrieval/retriever.py],
    [src/retrieval/document_processor.py], [src/schemas.py] and
    [src/validation/validator.py], and the properties of the similarity
    search, the numeric validator and the audit trail that the
    specification states.

    Numbers are the code's: a Python [int] is a [Z], a Python [float] is an
    IEEE 754 binary64 datum ([spec_float] with precision 53 and exponent
    bound 1024), a numpy [float32] scalar is a binary32 datum (precision 24,
    exponent bound 128).  Exceptions are values of [Result]. *)

From Stdlib Require Import ZArith Lia SpecFloat Ascii Sorted Permutation.
From stdpp Require Import base list strings gmap pretty sorting.

Open Scope Z_scope.

(** ** Exceptions *)

Inductive exn :=
  | IndexError
  | OverflowError
  | ValueError
  | DanglingReference.

Inductive Result (A : Type) :=
  | Ok (a : A)
  | Raise (e : exn).
Arguments Ok {A} a.
Arguments Raise {A} e.

(** ** Floating-point numbers *)

Module Float.

Abbreviation float := spec_float.

Definition is_nan (x : float) : bool :=
  match x with S754_nan => true | _ => false end.

Definition is_inf (x : float) : bool :=
  match x with S754_infinity _ => true | _ => false end.

(** The datum of an integer, before any rounding. *)
Definition of_Z (z : Z) : float :=
  match z with
  | Z0 => S754_zero false
  | Zpos m => S754_finite false m 0
  | Zneg m => S754_finite true m 0
  end.

(** binary64: Python's [float]. *)
Definition mul : float -> float -> float := SFmul 53 1024.
Definition div : float -> float -> float := SFdiv 53 1024.
Definition add : float -> float -> float := SFadd 53 1024.
Definition sub : float -> float -> float := SFsub 53 1024.
Definition abs : float -> float := SFabs.
Definition ltb : float -> float -> bool := SFltb.
Definition leb : float -> float -> bool := SFleb.

(** [float(z)]: the integer [z] rounded to the nearest binary64. *)
Definition of_int (z : Z) : float := binary_normalize 53 1024 z 0 false.

Definition zero : float := S754_zero false.

(** The literal [0.01]. *)
Definition lit_0_01 : float := S754_finite false 5764607523034235 (-59).

(** [a / b] on two Python ints, [b] not zero: the quotient rounded once to
    the nearest binary64; [OverflowError] when it is beyond the range. *)
Definition int_truediv (a b : Z) : Result float :=
  let q := div (of_Z a) (of_Z b) in
  if is_inf q then Raise OverflowError else Ok q.

(** binary32: the scalars numpy computes from [float32] arrays. *)
Definition mul32 : float -> float -> float := SFmul 24 128.
Definition div32 : float -> float -> float := SFdiv 24 128.
Definition add32 : float -> float -> float := SFadd 24 128.
Definition sqrt32 : float -> float := SFsqrt 24 128.

End Float.
Import Float.

(** ** numpy *)

(** The comparison numpy sorts floating-point numbers with: [a < b], or [b]
    is a NaN and [a] is not; NaNs go last. *)
Definition np_lt (a b : float) : bool :=
  ltb a b || (is_nan b && negb (is_nan a)).

(** Python's [l[start:]]. *)
Definition slice_from {A} (start : Z) (l : list A) : list A :=
  let n := Z.of_nat (length l) in
  let start := if start <? 0 then Z.max 0 (start + n) else Z.min start n in
  drop (Z.to_nat start) l.

(** The numpy functions [search] calls.  [np_dot] and [np_linalg_norm] are
    left to the library (the order of the additions is its own), and so is
    [np_argsort]: the default sort is not a stable one, and the order it
    leaves tied indices in depends on the build. *)
Class Numpy := {
  np_dot : list float -> list float -> float;
  np_linalg_norm : list float -> float;
  np_argsort : list float -> list nat
}.

(** What [np.argsort] promises: the indices of the array, each once, in an
    order in which the values never decrease (NaNs last). *)
Definition sorts_ascending (argsort : list float -> list nat) : Prop :=
  forall xs : list float,
    Permutation (argsort xs) (seq 0 (length xs)) /\
    StronglySorted
      (fun i j => np_lt (nth j xs S754_nan) (nth i xs S754_nan) = false)
      (argsort xs).

(** One argsort that meets the promise, for the examples: a sort by
    insertion, in which each index in turn is moved left past the entries
    whose value is greater than its own ([sorted_rev] is the sorted part,
    last entry first).  It is a stable sort: it lists tied indices in the
    order of the array.  numpy's own default sort is not bound to that:
    its vectorised sorts list tied indices in other orders, so nothing
    about ties that holds of this sort is taken to hold of [np.argsort];
    what is proved of [search] in general is proved of every argsort that
    sorts. *)
Fixpoint insert_left (xs : list float) (vi : nat) (sorted_rev : list nat)
  : list nat :=
  match sorted_rev with
  | [] => [vi]
  | pk :: rest =>
      if np_lt (nth vi xs S754_nan) (nth pk xs S754_nan)
      then pk :: insert_left xs vi rest
      else vi :: pk :: rest
  end.

Definition insertion_argsort (xs : list float) : list nat :=
  rev (fold_left (fun sorted_rev vi => insert_left xs vi sorted_rev)
                 (seq 0 (length xs)) []).

(** A numpy for the examples: that sort, a dot product in binary32 with
    the products added from left to right, and the norm as its square
    root.  (The order in which [np.dot] adds is the library's own; the
    examples use vectors of small integers, whose sums are exact in any
    order.) *)
Fixpoint dot_from (acc : float) (u v : list float) : float :=
  match u, v with
  | a :: u', b :: v' => dot_from (add32 acc (mul32 a b)) u' v'
  | _, _ => acc
  end.

Definition numpy_scalar : Numpy := {|
  np_dot := dot_from zero;
  np_linalg_norm := fun v => sqrt32 (dot_from zero v v);
  np_argsort := insertion_argsort
|}.

(** ** src/retrieval/retriever.py *)

Record Metadata := {
  md_article_number : Z;
  md_source : string
}.

(** A chunk as [DocumentProcessor.chunk_documents] stores it. *)
Record Chunk := {
  chunk_text : string;
  chunk_metadata : Metadata
}.

(** An entry of the list [search] returns. *)
Record SearchResult := {
  text : string;
  article_number : Z;
  source : string;
  relevance_score : float
}.

(** The sentence embedder: a text to its vector. *)
Definition Embedder := string -> list float.

Record RegulatoryRetriever := {
  chunks : list Chunk;
  embedder : Embedder;
  embeddings : list (list float)
}.

(** [RegulatoryRetriever.__init__], from the chunks read from the file and
    the embedder it loads. *)
Definition RegulatoryRetriever_init (stored : list Chunk) (model : Embedder)
  : RegulatoryRetriever :=
  let texts := map chunk_text stored in
  {| chunks := stored; embedder := model; embeddings := map model texts |}.

Section Search.
Context {np : Numpy}.

Definition cosine (query_embedding doc_embedding : list float) : float :=
  div32 (np_dot query_embedding doc_embedding)
        (mul32 (np_linalg_norm query_embedding)
               (np_linalg_norm doc_embedding)).

Definition similarities (self : RegulatoryRetriever) (query : string)
  : list float :=
  let query_embedding := embedder self query in
  map (cosine query_embedding) (embeddings self).

(** [np.argsort(similarities)[-top_k:][::-1]] *)
Definition top_indices (sims : list float) (top_k : Z) : list nat :=
  rev (slice_from (- top_k) (np_argsort sims)).

Definition result_at (self : RegulatoryRetriever) (sims : list float)
    (idx : nat) : Result SearchResult :=
  match chunks self !! idx, sims !! idx with
  | Some chunk, Some similarity =>
      Ok {| text := chunk_text chunk;
            article_number := md_article_number (chunk_metadata chunk);
            source := md_source (chunk_metadata chunk);
            relevance_score := similarity |}
  | _, _ => Raise IndexError
  end.

Fixpoint retrieve (self : RegulatoryRetriever) (sims : list float)
    (indices : list nat) (results : list SearchResult)
  : Result (list SearchResult) :=
  match indices with
  | [] => Ok results
  | idx :: indices' =>
      match result_at self sims idx with
      | Ok r => retrieve self sims indices' (results ++ [r])
      | Raise e => Raise e
      end
  end.

Definition search (self : RegulatoryRetriever) (query : string) (top_k : Z)
  : Result (list SearchResult) :=
  let sims := similarities self query in
  retrieve self sims (top_indices sims top_k) [].

End Search.

(** ** Python text and built-ins *)

Definition NL : string := String "010"%char "".

(** [s * n] *)
Fixpoint str_repeat (s : string) (n : nat) : string :=
  match n with
  | O => ""
  | S n' => s +:+ str_repeat s n'
  end.

(** The decimal text of an int. *)
Definition str_int (z : Z) : string := pretty z.

(** [f"{z}"] on an int.  The interpreter writes no int of more than
    [sys.int_max_str_digits] digits, 4300 unless it is set otherwise (the
    sign is not counted): it raises [ValueError]. *)
Definition int_max_str_digits : Z := 4300.

Definition within_str_digits (z : Z) : bool :=
  Z.abs z <? 10 ^ int_max_str_digits.

Definition format_int (z : Z) : Result string :=
  if within_str_digits z then Ok (str_int z) else Raise ValueError.

(** The value of a finite float [m * 2^e] rounded to an integer, ties to
    the even one: the digits [format(x, ".0f")] prints. *)
Definition round_half_even (m : positive) (e : Z) : Z :=
  if 0 <=? e then Zpos m * 2 ^ e
  else
    let d := 2 ^ (- e) in
    let q := Zpos m / d in
    let r := Zpos m mod d in
    match 2 * r ?= d with
    | Lt => q
    | Gt => q + 1
    | Eq => if Z.even q then q else q + 1
    end.

(** Thousands separators, on the digits from the last to the first. *)
Fixpoint group_rev (digits_rev : list ascii) (in_group : nat) : list ascii :=
  match digits_rev with
  | [] => []
  | d :: rest =>
      match in_group, rest with
      | S (S _), _ :: _ => d :: ","%char :: group_rev rest 0
      | _, _ => d :: group_rev rest (S in_group)
      end
  end.

Definition with_commas (digits : string) : string :=
  String.string_of_list_ascii
    (rev (group_rev (rev (String.list_ascii_of_string digits)) 0)).

(** [f"{x:,.0f}"] on a float. *)
Definition format_comma_0f (x : float) : string :=
  match x with
  | S754_nan => "nan"
  | S754_infinity s => (if s then "-" else "") +:+ "inf"
  | S754_zero s => (if s then "-" else "") +:+ "0"
  | S754_finite s m e =>
      (if s then "-" else "") +:+ with_commas (str_int (round_half_even m e))
  end.

(** ** [repr] of a float

    The shortest decimal that reads back as the same float, the nearest one
    when several are as short, written with an exponent when the decimal
    point would be far from the digits. *)

(** Number of decimal digits of a positive integer. *)
Definition ndigits (z : Z) : Z := Z.of_nat (String.length (pretty z)).

(** [x * 10^k] as a fraction. *)
Definition scale10 (x : Z) (k : Z) : Z * Z :=
  if 0 <=? k then (x * 10 ^ k, 1) else (x, 10 ^ (- k)).

(** [x * 2^k] as a fraction. *)
Definition scale2 (x : Z) (k : Z) : Z * Z :=
  if 0 <=? k then (x * 2 ^ k, 1) else (x, 2 ^ (- k)).

Definition frac_compare (a b : Z * Z) : comparison :=
  (a.1 * b.2 ?= b.1 * a.2).

Definition frac_floor (a : Z * Z) : Z := a.1 / a.2.

(** [floor (log10 v)] for the fraction [v > 0]. *)
Definition decimal_exponent (v : Z * Z) : Z :=
  if v.2 <=? v.1 then ndigits (v.1 / v.2) - 1
  else
    let dq := ndigits (v.2 / v.1) in
    (* 10^(dq-1) <= 1/v < 10^dq *)
    if v.1 * 10 ^ (dq - 1) =? v.2 then - (dq - 1) else - dq.

(** The candidates with [n] digits for the binary64 [m * 2^e]: the decimal
    below and the one above, kept when they lie between the midpoints to
    the neighbouring floats (the midpoints count when [m] is even), so that
    reading them back gives [m * 2^e] again; the nearer one wins, the even
    one on a tie.  Everything is in units of [2^(e-2)]. *)
Definition shortest_with (m : positive) (e : Z) (n : Z) : option (Z * Z) :=
  let v := scale2 (4 * Zpos m) (e - 2) in
  let dlo := if (Zpos m =? 2 ^ 52) && (-1074 <? e) then 1 else 2 in
  let lo := scale2 (4 * Zpos m - dlo) (e - 2) in
  let hi := scale2 (4 * Zpos m + 2) (e - 2) in
  let closed := Z.even (Zpos m) in
  let k := decimal_exponent v - n + 1 in
  let inside c :=
    let x := scale10 c k in
    match frac_compare lo x, frac_compare x hi with
    | Lt, Lt => true
    | Eq, (Lt | Eq) => closed
    | Lt, Eq => closed
    | _, _ => false
    end in
  let unit := scale10 1 (- k) in
  let below := frac_floor (v.1 * unit.1, v.2 * unit.2) in
  let above := below + 1 in
  (* [v] against the middle of [below] and [above] *)
  let mid := frac_compare (2 * v.1, v.2) (scale10 (below + above) k) in
  match inside below, inside above with
  | true, true =>
      match mid with
      | Lt => Some (below, k)
      | Gt => Some (above, k)
      | Eq => Some (if Z.even below then below else above, k)
      end
  | true, false => Some (below, k)
  | false, true => Some (above, k)
  | false, false => None
  end.

Fixpoint shortest_from (m : positive) (e : Z) (n : Z) (fuel : nat) : Z * Z :=
  match fuel with
  | O => (Zpos m, 0)
  | S fuel' =>
      match shortest_with m e n with
      | Some dk => dk
      | None => shortest_from m e (n + 1) fuel'
      end
  end.

(** Trailing zeros go to the exponent. *)
Fixpoint strip_zeros (d k : Z) (fuel : nat) : Z * Z :=
  match fuel with
  | O => (d, k)
  | S fuel' =>
      if d mod 10 =? 0 then strip_zeros (d / 10) (k + 1) fuel' else (d, k)
  end.

Definition str_zeros (n : Z) : string :=
  String.string_of_list_ascii (replicate (Z.to_nat n) "0"%char).

Definition str_take (n : Z) (s : string) : string :=
  String.substring 0 (Z.to_nat n) s.

Definition str_drop (n : Z) (s : string) : string :=
  String.substring (Z.to_nat n) (String.length s - Z.to_nat n) s.

(** The text of a positive finite float: at most 17 digits, with an
    exponent when the decimal point would be more than 16 places right or
    more than 4 places left of the first digit. *)
Definition repr_finite (m : positive) (e : Z) : string :=
  let '(d0, k0) := shortest_from m e 1 17 in
  let '(d, k) := strip_zeros d0 k0 20 in
  let digits := pretty d in
  let n := Z.of_nat (String.length digits) in
  let decpt := n + k in
  if (decpt <=? -4) || (16 <? decpt) then
    let x := decpt - 1 in
    String.substring 0 1 digits
    +:+ (if 1 <? n then "." +:+ str_drop 1 digits else "")
    +:+ "e" +:+ (if x <? 0 then "-" else "+")
    +:+ (if Z.abs x <? 10 then "0" else "") +:+ pretty (Z.abs x)
  else if decpt <=? 0 then
    "0." +:+ str_zeros (- decpt) +:+ digits
  else if n <=? decpt then
    digits +:+ str_zeros (decpt - n) +:+ ".0"
  else
    str_take decpt digits +:+ "." +:+ str_drop decpt digits.

(** [repr(x)], the text [f"{x}"] prints for a float. *)
Definition repr_float (x : float) : string :=
  match x with
  | S754_nan => "nan"
  | S754_infinity s => (if s then "-" else "") +:+ "inf"
  | S754_zero s => (if s then "-" else "") +:+ "0.0"
  | S754_finite s m e => (if s then "-" else "") +:+ repr_finite m e
  end.

(** The float additions of [sum] are the interpreter's own (left to right
    in older interpreters, with a compensation term in newer ones). *)
Class Python := {
  sum_floats : list float -> float
}.

(** The older interpreters' [sum]: from [0], left to right. *)
Definition sum_left_to_right : Python := {|
  sum_floats := fun items => fold_left add items zero
|}.

(** A Python number: [sum] of no item is the int [0]. *)
Inductive number :=
  | Int (z : Z)
  | Flt (x : float).

Definition to_float (n : number) : float :=
  match n with
  | Int z => of_int z
  | Flt x => x
  end.

(** ** src/schemas.py *)

Inductive ExposureClass :=
  | CENTRAL_GOVERNMENTS
  | INSTITUTIONS
  | CORPORATES
  | RETAIL
  | RESIDENTIAL_MORTGAGES
  | COMMERCIAL_REAL_ESTATE.

Definition value (c : ExposureClass) : string :=
  match c with
  | CENTRAL_GOVERNMENTS => "Central governments or central banks"
  | INSTITUTIONS => "Institutions"
  | CORPORATES => "Corporates"
  | RETAIL => "Retail"
  | RESIDENTIAL_MORTGAGES =>
      "Exposures secured by mortgages on residential property"
  | COMMERCIAL_REAL_ESTATE =>
      "Exposures secured by mortgages on commercial immovable property"
  end.

Record RegulatoryReference := {
  ref_article_number : Z;
  ref_source : string;
  excerpt : string
}.

Record CR1Row := {
  exposure_class : ExposureClass;
  original_exposure_value : float;
  risk_weight_percent : Z;
  risk_weighted_assets : float;
  regulatory_references : list RegulatoryReference
}.

(** References to objects. *)
Definition loc := nat.

Record CR1Template := {
  rows : list loc;
  total_exposure : float;
  total_rwa : float
}.

(** ** The object store

    Rows and templates are objects that a caller keeps and may change;
    [lists_of] holds the lists of text that outlive a call (the validator's
    own). *)
Record Heap := {
  rows_of : gmap loc CR1Row;
  templates_of : gmap loc CR1Template;
  lists_of : gmap loc (list string)
}.

Definition set_lists (f : gmap loc (list string) -> gmap loc (list string))
    (h : Heap) : Heap :=
  {| rows_of := rows_of h;
     templates_of := templates_of h;
     lists_of := f (lists_of h) |}.

(** A computation on the store that returns or raises. *)
Definition M (A : Type) : Type := Heap -> Result A * Heap.

#[global] Instance M_ret : MRet M := fun A a h => (Ok a, h).

#[global] Instance M_bind : MBind M := fun A B f m h =>
  match m h with
  | (Ok a, h') => f a h'
  | (Raise e, h') => (Raise e, h')
  end.

Definition lift {A} (r : Result A) : M A := fun h => (r, h).

Definition get_row (l : loc) : M CR1Row := fun h =>
  match rows_of h !! l with
  | Some r => (Ok r, h)
  | None => (Raise DanglingReference, h)
  end.

Definition get_template (l : loc) : M CR1Template := fun h =>
  match templates_of h !! l with
  | Some t => (Ok t, h)
  | None => (Raise DanglingReference, h)
  end.

(** [[]]: a new, empty list. *)
Definition new_list : M loc := fun h =>
  let l := fresh (dom (lists_of h)) in
  (Ok l, set_lists (insert l []) h).

(** [l.append(s)] *)
Definition list_append (l : loc) (s : string) : M unit := fun h =>
  match lists_of h !! l with
  | Some items => (Ok (), set_lists (insert l (items ++ [s])) h)
  | None => (Raise DanglingReference, h)
  end.

(** [CR1Row.calculate_rwa] *)
Definition calculate_rwa (self : loc) : M float :=
  r ← get_row self;
  q ← lift (int_truediv (risk_weight_percent r) 100);
  mret (mul (original_exposure_value r) q).

Section Builtins.
Context {py : Python}.

Definition str_number (n : number) : string :=
  match n with
  | Int z => str_int z
  | Flt x => repr_float x
  end.

(** [sum(...)] over floats. *)
Definition py_sum (items : list float) : number :=
  match items with
  | [] => Int 0
  | _ :: _ => Flt (sum_floats items)
  end.

(** The values a generator [row.field for row in rows] yields. *)
Fixpoint fields_of (field : CR1Row -> float) (rows : list loc)
  : M (list float) :=
  match rows with
  | [] => mret []
  | row :: rest =>
      r ← get_row row;
      items ← fields_of field rest;
      mret (field r :: items)
  end.

(** [CR1Template.validate_totals] *)
Definition validate_totals (self : loc) : M (list string) :=
  t ← get_template self;
  let errors := [] in
  exposures ← fields_of original_exposure_value (rows t);
  let calculated_exposure := py_sum exposures in
  rwas ← fields_of risk_weighted_assets (rows t);
  let calculated_rwa := py_sum rwas in
  let errors :=
    if ltb lit_0_01
           (abs (sub (to_float calculated_exposure) (total_exposure t)))
    then errors ++
         ["Total exposure mismatch: declared "
          +:+ repr_float (total_exposure t) +:+ ", calculated "
          +:+ str_number calculated_exposure]
    else errors in
  let errors :=
    if ltb lit_0_01 (abs (sub (to_float calculated_rwa) (total_rwa t)))
    then errors ++
         ["Total RWA mismatch: declared "
          +:+ repr_float (total_rwa t) +:+ ", calculated "
          +:+ str_number calculated_rwa]
    else errors in
  mret errors.

End Builtins.

(** ** src/validation/validator.py *)

(** The validator object: its two lists, made once by [__init__]. *)
Record CR1Validator := {
  errors : loc;
  warnings : loc
}.

(** The dict [validate_template] returns.  Its ['warnings'] entry is the
    validator's own list, not a copy. *)
Record Report := {
  is_valid : bool;
  report_errors : list string;
  report_warnings : loc
}.

(** [CR1Validator.__init__] *)
Definition CR1Validator_init : M CR1Validator :=
  e ← new_list;
  w ← new_list;
  mret {| errors := e; warnings := w |}.

(** Text is kept as its UTF-8 bytes. *)
Definition POUND : string := String "194"%char (String "163"%char "").
Definition BULLET : string :=
  String "226"%char (String "128"%char (String "162"%char "")).

Section Validator.
Context {py : Python}.

(** [CR1Validator.validate_row].  (The message for a risk weight out of
    range is written with the text of the weight; a weight of more than
    4300 digits, which the source cannot write there, is also beyond the
    range of the floats, the range of the weights that the properties of
    the messages are about.) *)
Definition validate_row (self : CR1Validator) (row : loc)
  : M (list string) :=
  r ← get_row row;
  let errors := [] in
  let errors :=
    if leb (original_exposure_value r) zero
    then errors ++
         ["Invalid exposure value: "
          +:+ repr_float (original_exposure_value r)]
    else errors in
  let errors :=
    if (risk_weight_percent r <? 0) || (1250 <? risk_weight_percent r)
    then errors ++
         ["Invalid risk weight: "
          +:+ str_int (risk_weight_percent r) +:+ "%"]
    else errors in
  expected_rwa ← calculate_rwa row;
  let errors :=
    if ltb lit_0_01 (abs (sub (risk_weighted_assets r) expected_rwa))
    then errors ++
         ["RWA mismatch: declared "
          +:+ repr_float (risk_weighted_assets r) +:+ ", "
          +:+ "calculated " +:+ repr_float expected_rwa]
    else errors in
  _ ← match regulatory_references r with
      | [] =>
          list_append (warnings self)
            ("No regulatory references for "
             +:+ value (exposure_class r))
      | _ :: _ => mret ()
      end;
  mret errors.

(** The loop of [validate_template], from row number [i] (counted from
    0) on. *)
Fixpoint validate_rows (self : CR1Validator) (i : nat) (rows : list loc)
    (all_errors : list string) : M (list string) :=
  match rows with
  | [] => mret all_errors
  | row :: rest =>
      row_errors ← validate_row self row;
      let all_errors :=
        match row_errors with
        | [] => all_errors
        | _ :: _ =>
            all_errors ++
            map (fun err =>
                   "Row " +:+ str_int (Z.of_nat i + 1) +:+ ": " +:+ err)
                row_errors
        end in
      validate_rows self (S i) rest all_errors
  end.

(** [CR1Validator.validate_template] *)
Definition validate_template (self : CR1Validator) (template : loc)
  : M Report :=
  let all_errors := [] in
  t ← get_template template;
  all_errors ← validate_rows self 0 (rows t) all_errors;
  total_errors ← validate_totals template;
  let all_errors := all_errors ++ total_errors in
  mret {| is_valid := Nat.eqb (length all_errors) 0;
          report_errors := all_errors;
          report_warnings := warnings self |}.

(** The inner loop of [generate_audit_trail]. *)
Fixpoint trail_references (refs : list RegulatoryReference)
    (trail : string) : string :=
  match refs with
  | [] => trail
  | ref :: rest =>
      let trail := trail +:+ ("    " +:+ BULLET +:+ " "
                              +:+ ref_source ref +:+ NL) in
      let trail := trail +:+ ("      " +:+ excerpt ref +:+ NL) in
      trail_references rest trail
  end.

(** The outer loop, from row number [i] (counted from 1) on.  The number
    of a row is below the length of a list, far from the limit on the
    digits of an int; the risk weight of a row is any int. *)
Fixpoint trail_rows (i : nat) (rows : list loc) (trail : string)
  : M string :=
  match rows with
  | [] => mret trail
  | row :: rest =>
      r ← get_row row;
      let trail := trail +:+ ("Row " +:+ str_int (Z.of_nat i) +:+ ": "
                              +:+ value (exposure_class r) +:+ NL) in
      let trail := trail +:+ ("  Exposure: " +:+ POUND
                              +:+ format_comma_0f (original_exposure_value r)
                              +:+ NL) in
      weight ← lift (format_int (risk_weight_percent r));
      let trail := trail +:+ ("  Risk Weight: " +:+ weight
                              +:+ "%" +:+ NL) in
      let trail := trail +:+ ("  RWA: " +:+ POUND
                              +:+ format_comma_0f (risk_weighted_assets r)
                              +:+ NL) in
      let trail := trail +:+ (NL +:+ "  Regulatory Basis:" +:+ NL) in
      let trail := trail_references (regulatory_references r) trail in
      let trail := trail +:+ (NL +:+ str_repeat "-" 70 +:+ NL +:+ NL) in
      trail_rows (S i) rest trail
  end.

(** [CR1Validator.generate_audit_trail] *)
Definition generate_audit_trail (self : CR1Validator) (rows : list loc)
  : M string :=
  let trail := "AUDIT TRAIL - REGULATORY JUSTIFICATION" +:+ NL in
  let trail := trail +:+ (str_repeat "=" 70 +:+ NL +:+ NL) in
  trail_rows 1 rows trail.

End Validator.

(** ** Orders on scores *)

(** A key that orders floats as [np_lt] does: the sign and class first, then
    the exponent, then the mantissa. *)
Definition np_key (x : float) : Z * (Z * Z) :=
  match x with
  | S754_nan => (3, (0, 0))
  | S754_infinity false => (2, (0, 0))
  | S754_finite false m e => (1, (e, Zpos m))
  | S754_zero _ => (0, (0, 0))
  | S754_finite true m e => (-1, (- e, Zneg m))
  | S754_infinity true => (-2, (0, 0))
  end.

Definition key_lt (a b : Z * (Z * Z)) : Prop :=
  a.1 < b.1 \/
  (a.1 = b.1 /\ (a.2.1 < b.2.1 \/ (a.2.1 = b.2.1 /\ a.2.2 < b.2.2))).

(** Index [i] goes before index [j] in a stable ascending sort of [xs]: its
    value is less, or neither value is less and [i] is the earlier one. *)
Definition before (xs : list float) (i j : nat) : Prop :=
  np_lt (nth i xs S754_nan) (nth j xs S754_nan) = true \/
  (np_lt (nth j xs S754_nan) (nth i xs S754_nan) = false /\ (i < j)%nat).

(** [order] lists [i] at an earlier place than [j]. *)
Definition listed_before (order : list nat) (i j : nat) : Prop :=
  exists a b : nat, (a < b)%nat /\ order !! a = Some i /\ order !! b = Some j.

(** Two scores are tied: neither goes before the other in the order numpy
    sorts by. *)
Definition tied (x y : float) : Prop :=
  np_lt x y = false /\ np_lt y x = false.

(** ** Sample data *)

Definition of_int32 (z : Z) : float := binary_normalize 24 128 z 0 false.

Fixpoint count_char (c : ascii) (s : string) : Z :=
  match s with
  | EmptyString => 0
  | String c' s' => (if Ascii.eqb c c' then 1 else 0) + count_char c s'
  end.

(** An embedder for the examples: one plus the number of times each of six
    letters occurs in the text. *)
Definition letter_embedder : Embedder := fun s =>
  map (fun c => of_int32 (1 + count_char c s))
      ["c"; "o"; "r"; "g"; "m"; "t"]%char.

Definition corpus3 : list Chunk :=
  [ {| chunk_text := "corporate exposures";
       chunk_metadata :=
         {| md_article_number := 122; md_source := "Article 122" |} |};
    {| chunk_text := "residential mortgages";
       chunk_metadata :=
         {| md_article_number := 125; md_source := "Article 125" |} |};
    {| chunk_text := "central government exposures";
       chunk_metadata :=
         {| md_article_number := 114; md_source := "Article 114" |} |} ].

(** Two chunks with the same text: their scores are equal for any query. *)
Definition twin_corpus : list Chunk :=
  [ {| chunk_text := "corporate exposures";
       chunk_metadata :=
         {| md_article_number := 122; md_source := "first copy" |} |};
    {| chunk_text := "corporate exposures";
       chunk_metadata :=
         {| md_article_number := 122; md_source := "second copy" |} |} ].

(** ** The validator's rules, as the specification words them *)

Inductive invariant :=
  | ExposurePositive
  | WeightInRange
  | RwaConsistent.

(** [exposure * (weight / 100)] *)
Definition expected_rwa (exposure : float) (weight : Z) : float :=
  mul exposure (div (of_Z weight) (of_Z 100)).

(** A difference beyond the absolute tolerance 0.01. *)
Definition beyond_tolerance (x y : float) : bool :=
  ltb lit_0_01 (abs (sub x y)).

Definition violated (exposure : float) (weight : Z) (rwa : float)
    (inv : invariant) : bool :=
  match inv with
  | ExposurePositive => leb exposure zero
  | WeightInRange => negb ((0 <=? weight) && (weight <=? 1250))
  | RwaConsistent => beyond_tolerance rwa (expected_rwa exposure weight)
  end.

(** The rows whose [risk_weight_percent / 100] is in the range of a float. *)
Definition weight_in_float_range (r : CR1Row) : bool :=
  negb (is_inf (div (of_Z (risk_weight_percent r)) (of_Z 100))).

(** [m] run [n] times in a row, with what each run returned. *)
Fixpoint repeat_call {A} (m : M A) (n : nat) : M (list A) :=
  match n with
  | O => mret []
  | S n' =>
      a ← m;
      rest ← repeat_call m n';
      mret (a :: rest)
  end.

(** [l] as it is now. *)
Definition get_list (l : loc) : M (list string) := fun h =>
  match lists_of h !! l with
  | Some items => (Ok items, h)
  | None => (Raise DanglingReference, h)
  end.

Section Rules.
Context {py : Python}.

Definition error_text (exposure : float) (weight : Z) (rwa : float)
    (inv : invariant) : string :=
  match inv with
  | ExposurePositive => "Invalid exposure value: " +:+ repr_float exposure
  | WeightInRange => "Invalid risk weight: " +:+ str_int weight +:+ "%"
  | RwaConsistent =>
      "RWA mismatch: declared " +:+ repr_float rwa +:+ ", calculated "
      +:+ repr_float (expected_rwa exposure weight)
  end.

(** One error for each violated invariant. *)
Definition violations (exposure : float) (weight : Z) (rwa : float)
  : list string :=
  map (error_text exposure weight rwa)
      (List.filter (violated exposure weight rwa)
                   [ExposurePositive; WeightInRange; RwaConsistent]).

Definition row_violations (r : CR1Row) : list string :=
  violations (original_exposure_value r) (risk_weight_percent r)
             (risk_weighted_assets r).

(** The warning of a row that cites nothing. *)
Definition row_warnings (r : CR1Row) : list string :=
  match regulatory_references r with
  | [] => ["No regulatory references for " +:+ value (exposure_class r)]
  | _ :: _ => []
  end.

(** The errors of the rows, each with the number of its row, the first
    row being row 1; [i] is the number of rows before. *)
Fixpoint rows_violations (i : nat) (rs : list CR1Row) : list string :=
  match rs with
  | [] => []
  | r :: rest =>
      map (fun err => "Row " +:+ str_int (Z.of_nat i + 1) +:+ ": " +:+ err)
          (row_violations r)
      ++ rows_violations (S i) rest
  end.

(** The errors of the declared totals against the sums over the rows. *)
Definition totals_violations (rs : list CR1Row) (t : CR1Template)
  : list string :=
  let exposure := py_sum (map original_exposure_value rs) in
  let rwa := py_sum (map risk_weighted_assets rs) in
  (if beyond_tolerance (to_float exposure) (total_exposure t)
   then ["Total exposure mismatch: declared "
         +:+ repr_float (total_exposure t) +:+ ", calculated "
         +:+ str_number exposure]
   else [])
  ++
  (if beyond_tolerance (to_float rwa) (total_rwa t)
   then ["Total RWA mismatch: declared "
         +:+ repr_float (total_rwa t) +:+ ", calculated "
         +:+ str_number rwa]
   else []).

(** What a caller sees in the report right after the call. *)
Definition validate_and_read (self : CR1Validator) (template : loc)
  : M (bool * list string * list string) :=
  report ← validate_template self template;
  shown ← get_list (report_warnings report);
  mret (is_valid report, report_errors report, shown).

End Rules.

(** ** The audit trail, section by section *)

Definition reference_lines (ref : RegulatoryReference) : string :=
  ("    " +:+ BULLET +:+ " " +:+ ref_source ref +:+ NL)
  +:+ ("      " +:+ excerpt ref +:+ NL).

Fixpoint references_lines (refs : list RegulatoryReference) : string :=
  match refs with
  | [] => ""
  | ref :: rest => reference_lines ref +:+ references_lines rest
  end.

Definition row_section (i : nat) (r : CR1Row) : string :=
  ("Row " +:+ str_int (Z.of_nat i) +:+ ": " +:+ value (exposure_class r)
   +:+ NL)
  +:+ ("  Exposure: " +:+ POUND
       +:+ format_comma_0f (original_exposure_value r) +:+ NL)
  +:+ ("  Risk Weight: " +:+ str_int (risk_weight_percent r) +:+ "%" +:+ NL)
  +:+ ("  RWA: " +:+ POUND +:+ format_comma_0f (risk_weighted_assets r)
       +:+ NL)
  +:+ (NL +:+ "  Regulatory Basis:" +:+ NL)
  +:+ references_lines (regulatory_references r)
  +:+ (NL +:+ str_repeat "-" 70 +:+ NL +:+ NL).

Fixpoint row_sections (i : nat) (rs : list CR1Row) : string :=
  match rs with
  | [] => ""
  | r :: rest => row_section i r +:+ row_sections (S i) rest
  end.

Definition trail_header : string :=
  ("AUDIT TRAIL - REGULATORY JUSTIFICATION" +:+ NL)
  +:+ (str_repeat "=" 70 +:+ NL +:+ NL).

(** The risk weight of [r] is an int that [f"{...}"] writes: one of at most
    4300 digits. *)
Definition weight_has_text (r : CR1Row) : bool :=
  within_str_digits (risk_weight_percent r).

(** A computation that writes to no row and to no template. *)
Definition keeps_objects {A} (m : M A) : Prop :=
  forall h, rows_of (m h).2 = rows_of h /\
            templates_of (m h).2 = templates_of h.

(** ** Sample rows, a template and a validator *)

Definition article_122 : RegulatoryReference :=
  {| ref_article_number := 122;
     ref_source := "PRA Rulebook Article 122";
     excerpt := "Exposures for which no credit assessment is available..." |}.

Definition corporate_row : CR1Row :=
  {| exposure_class := CORPORATES;
     original_exposure_value := of_int 50000000;
     risk_weight_percent := 100;
     risk_weighted_assets := of_int 50000000;
     regulatory_references := [article_122] |}.

(** A sound row that cites nothing. *)
Definition mortgage_row : CR1Row :=
  {| exposure_class := RESIDENTIAL_MORTGAGES;
     original_exposure_value := of_int 100000000;
     risk_weight_percent := 0;
     risk_weighted_assets := zero;
     regulatory_references := [] |}.

(** A row that breaks the three rules. *)
Definition broken_row : CR1Row :=
  {| exposure_class := RETAIL;
     original_exposure_value := of_int (-5);
     risk_weight_percent := 2000;
     risk_weighted_assets := of_int 40000000;
     regulatory_references := [] |}.

Definition sample_template : CR1Template :=
  {| rows := [0; 1]%nat;
     total_exposure := of_int 150000000;
     total_rwa := of_int 50000000 |}.

(** The same rows with a declared total RWA that is 1 short. *)
Definition short_template : CR1Template :=
  {| rows := [0; 1]%nat;
     total_exposure := of_int 150000000;
     total_rwa := of_int 49999999 |}.

(** The rows and the template, before any validator is made. *)
Definition sample_objects : Heap :=
  {| rows_of := <[0%nat := corporate_row]>
                  (<[1%nat := mortgage_row]> (<[2%nat := broken_row]> ∅));
     templates_of := <[0%nat := sample_template]>
                       (<[1%nat := short_template]> ∅);
     lists_of := ∅ |}.

Definition sample_validator : CR1Validator :=
  {| errors := 0%nat; warnings := 1%nat |}.

(** The store once [CR1Validator()] has run. *)
Definition sample_heap : Heap :=
  set_lists (fun _ => <[1%nat := []]> (<[0%nat := []]> ∅)) sample_objects.

(** The store with other rows, and a row with another declared RWA. *)
Definition set_rows (f : gmap loc CR1Row -> gmap loc CR1Row) (h : Heap)
  : Heap :=
  {| rows_of := f (rows_of h);
     templates_of := templates_of h;
     lists_of := lists_of h |}.

Definition with_rwa (rwa : float) (r : CR1Row) : CR1Row :=
  {| exposure_class := exposure_class r;
     original_exposure_value := original_exposure_value r;
     risk_weight_percent := risk_weight_percent r;
     risk_weighted_assets := rwa;
     regulatory_references := regulatory_references r |}.

(** Two calls, then both reports read. *)
Definition validate_twice_then_read `{Python} (self : CR1Validator)
    (template : loc) : M (list string * list string) :=
  first ← validate_template self template;
  second ← validate_template self template;
  shown_first ← get_list (report_warnings first);
  shown_second ← get_list (report_warnings second);
  mret (shown_first, shown_second).

(** * More of the code *)

(** ** What [search] returns for a chunk *)

(** The result for [chunk]: its text and metadata, with the cosine of the
    query and the text as its score. *)
Definition result_of `{Numpy} (model : Embedder) (query : string)
    (chunk : Chunk) : SearchResult :=
  {| text := chunk_text chunk;
     article_number := md_article_number (chunk_metadata chunk);
     source := md_source (chunk_metadata chunk);
     relevance_score := cosine (model query) (model (chunk_text chunk)) |}.

(** ** src/retrieval/retriever.py: [format_context] *)

(** [sep.join(parts)] *)
Fixpoint str_join (sep : string) (parts : list string) : string :=
  match parts with
  | [] => ""
  | part :: rest =>
      match rest with
      | [] => part
      | _ :: _ => part +:+ sep +:+ str_join sep rest
      end
  end.

(** The loop of [format_context]. *)
Fixpoint context_parts_of (results : list SearchResult)
    (context_parts : list string) : list string :=
  match results with
  | [] => context_parts
  | result :: rest =>
      context_parts_of rest
        (context_parts ++
         ["[" +:+ source result +:+ "]" +:+ NL +:+ text result +:+ NL])
  end.

(** [RegulatoryRetriever.format_context] *)
Definition format_context (self : RegulatoryRetriever)
    (results : list SearchResult) : string :=
  let context_parts := [] in
  let context_parts := context_parts_of results context_parts in
  str_join NL context_parts.

(** ** src/retrieval/document_processor.py *)

(** A call that returns or raises [KeyError] with the missing key. *)
Inductive Keyed (A : Type) :=
  | Found (a : A)
  | KeyError (key : string).
Arguments Found {A} a.
Arguments KeyError {A} key.

(** [d[key]] *)
Definition getitem {V} (d : gmap string V) (key : string) : Keyed V :=
  match d !! key with
  | Some v => Found v
  | None => KeyError key
  end.

(** A chunk as [chunk_documents] builds it, whatever the values of the
    document are. *)
Record StoredMetadata (V : Type) := {
  stored_article_number : V;
  stored_source : V
}.
Arguments stored_article_number {V}.
Arguments stored_source {V}.

Record StoredChunk (V : Type) := {
  stored_text : V;
  stored_metadata : StoredMetadata V
}.
Arguments stored_text {V}.
Arguments stored_metadata {V}.

Record DocumentProcessor (V : Type) := {
  corpus_path : string;
  processor_chunks : list (StoredChunk V)
}.
Arguments corpus_path {V}.
Arguments processor_chunks {V}.

(** [DocumentProcessor.__init__] *)
Definition DocumentProcessor_init {V} (corpus_path : string)
  : DocumentProcessor V :=
  {| corpus_path := corpus_path; processor_chunks := [] |}.

(** The check mark of the messages, as its UTF-8 bytes. *)
Definition CHECK : string :=
  String "226"%char (String "156"%char (String "147"%char "")).

Section Documents.
Context {V : Type}.

(** The chunk of one document. *)
Definition chunk_of (doc : gmap string V) : Keyed (StoredChunk V) :=
  match getitem doc "content" with
  | KeyError key => KeyError key
  | Found content =>
      match getitem doc "article_number" with
      | KeyError key => KeyError key
      | Found number =>
          match getitem doc "source" with
          | KeyError key => KeyError key
          | Found src =>
              Found {| stored_text := content;
                       stored_metadata :=
                         {| stored_article_number := number;
                            stored_source := src |} |}
          end
      end
  end.

(** The loop of [chunk_documents]. *)
Fixpoint chunk_loop (corpus : list (gmap string V))
    (chunks : list (StoredChunk V)) : Keyed (list (StoredChunk V)) :=
  match corpus with
  | [] => Found chunks
  | doc :: rest =>
      match chunk_of doc with
      | Found chunk => chunk_loop rest (chunks ++ [chunk])
      | KeyError key => KeyError key
      end
  end.

(** [DocumentProcessor.chunk_documents]: what it returns or raises, the
    processor after the call, and the lines printed so far. *)
Definition chunk_documents (self : DocumentProcessor V)
    (corpus : list (gmap string V)) (stdout : list string)
  : Keyed (list (StoredChunk V)) * DocumentProcessor V * list string :=
  match chunk_loop corpus [] with
  | Found chunks =>
      let stdout :=
        stdout ++ [CHECK +:+ " Created "
                   +:+ str_int (Z.of_nat (length chunks)) +:+ " chunks"] in
      (Found chunks,
       {| corpus_path := corpus_path self; processor_chunks := chunks |},
       stdout)
  | KeyError key => (KeyError key, self, stdout)
  end.

(** A document has the three keys [chunk_documents] reads. *)
Definition has_fields (doc : gmap string V) : Prop :=
  is_Some (doc !! "content") /\ is_Some (doc !! "article_number") /\
  is_Some (doc !! "source").

(** The first of the three keys that [doc] lacks. *)
Definition first_missing (doc : gmap string V) : option string :=
  match doc !! "content", doc !! "article_number", doc !! "source" with
  | None, _, _ => Some "content"
  | Some _, None, _ => Some "article_number"
  | Some _, Some _, None => Some "source"
  | Some _, Some _, Some _ => None
  end.

End Documents.

(** JSON values, for the examples. *)
Inductive json :=
  | JNull
  | JInt (z : Z)
  | JStr (s : string).

Definition article_doc (number : Z) (body : string) : gmap string json :=
  <["content" := JStr body]>
    (<["article_number" := JInt number]>
       (<["source" := JStr ("PRA Rulebook Article " +:+ str_int number)]> ∅)).

(** Two documents, the second with a key more; and one without a
    source. *)
Definition sample_corpus : list (gmap string json) :=
  [ article_doc 122 "corporate exposures";
    <["title" := JStr "Mortgages"]> (article_doc 125 "residential mortgages") ].

Definition unsourced_doc : gmap string json :=
  delete "source" (article_doc 114 "central government exposures").

(** ** The lists a computation writes to *)

(** A computation that changes no list but [l]. *)
Definition writes_only {A} (l : loc) (m : M A) : Prop :=
  forall h l', l' <> l -> lists_of (m h).2 !! l' = lists_of h !! l'.

(** Two validators made one after the other. *)
Definition two_validators : M (CR1Validator * CR1Validator) :=
  first ← CR1Validator_init;
  second ← CR1Validator_init;
  mret (first, second).

(** ** More sample data *)

(** A template of no row with totals of zero, in a store with a
    validator. *)
Definition empty_template : CR1Template :=
  {| rows := []; total_exposure := zero; total_rwa := zero |}.

Definition empty_template_heap : Heap :=
  {| rows_of := ∅;
     templates_of := <[0%nat := empty_template]> ∅;
     lists_of := <[1%nat := []]> (<[0%nat := []]> ∅) |}.

(** A row whose exposure is a NaN, put in the place of the third sample
    row. *)
Definition nan_row : CR1Row :=
  {| exposure_class := INSTITUTIONS;
     original_exposure_value := S754_nan;
     risk_weight_percent := 20;
     risk_weighted_assets := of_int 1000;
     regulatory_references := [article_122] |}.

Definition nan_heap : Heap := set_rows (insert 2%nat nan_row) sample_heap.

(** A row whose risk weight is the least int of 4301 digits, put in the
    place of the third sample row. *)
Definition long_weight_row : CR1Row :=
  {| exposure_class := CORPORATES;
     original_exposure_value := of_int 50000000;
     risk_weight_percent := 10 ^ 4300;
     risk_weighted_assets := of_int 50000000;
     regulatory_references := [article_122] |}.

Definition long_weight_heap : Heap :=
  set_rows (insert 2%nat long_weight_row) sample_heap.

Definition first_result : SearchResult :=
  {| text := "corporate exposures"; article_number := 122;
     source := "Article 122"; relevance_score := of_int32 1 |}.

Definition second_result : SearchResult :=
  {| text := "residential mortgages"; article_number := 125;
     source := "Article 125"; relevance_score := zero |}.

(** * Properties *)

(** ** The order numpy sorts by *)

Lemma np_lt_key a b : np_lt a b = true <-> key_lt (np_key a) (np_key b).
Proof.
  unfold np_lt, ltb, SFltb, key_lt.
  destruct a as [[]|[]| |[] m1 e1], b as [[]|[]| |[] m2 e2]; simpl;
    try (split; [discriminate || lia | intros; try reflexivity; lia]).
  all: rewrite ?Pos.compare_cont_spec; simpl.
  all: destruct (Z.compare_spec e1 e2), (Pos.compare_spec m1 m2); simpl;
    split; try discriminate; try reflexivity; try lia.
Qed.

Lemma np_lt_irrefl a : np_lt a a = false.
Proof.
  destruct (np_lt a a) eqn:E; [|done].
  apply np_lt_key in E. unfold key_lt in E. lia.
Qed.

Lemma np_lt_trans a b c :
  np_lt a b = true -> np_lt b c = true -> np_lt a c = true.
Proof. rewrite !np_lt_key. unfold key_lt. lia. Qed.

Lemma np_lt_false_iff a b :
  np_lt a b = false <-> ~ key_lt (np_key a) (np_key b).
Proof. rewrite <- np_lt_key. destruct (np_lt a b); split; congruence. Qed.

Lemma np_ge_trans a b c :
  np_lt a b = false -> np_lt b c = false -> np_lt a c = false.
Proof. rewrite !np_lt_false_iff. unfold key_lt. lia. Qed.

Lemma np_lt_asym a b : np_lt a b = true -> np_lt b a = false.
Proof. rewrite np_lt_false_iff, np_lt_key. unfold key_lt. lia. Qed.

(** On numbers, "not less" is "at least". *)
Lemma np_lt_false_leb a b :
  is_nan a = false -> is_nan b = false ->
  np_lt a b = false -> leb b a = true.
Proof.
  unfold np_lt, ltb, leb, SFltb, SFleb.
  destruct a as [[]|[]| |[] m1 e1], b as [[]|[]| |[] m2 e2]; simpl; try done.
  all: rewrite ?Pos.compare_cont_spec; simpl.
  all: rewrite (Z.compare_antisym e1 e2), (Pos.compare_antisym m1 m2).
  all: destruct (e1 ?= e2), (m1 ?= m2)%positive; simpl; done.
Qed.

(** ** Lists, slices and sortedness *)

Section ListFacts.
Context {A : Type}.
Implicit Types (R : A -> A -> Prop) (l : list A).

Lemma StronglySorted_weaken R R' l :
  (forall x y, R x y -> R' x y) -> StronglySorted R l -> StronglySorted R' l.
Proof.
  intros HR. induction 1 as [|x l _ IH Hx]; constructor; [done|].
  eapply Forall_impl; [exact Hx | auto].
Qed.

Lemma StronglySorted_drop R l n :
  StronglySorted R l -> StronglySorted R (drop n l).
Proof.
  intros H. rewrite <- (take_drop n l) in H.
  by apply StronglySorted_app_1_r in H.
Qed.

Lemma StronglySorted_rev R l :
  StronglySorted R l -> StronglySorted (flip R) (rev l).
Proof.
  induction 1 as [|x l _ IH Hx]; simpl; [constructor|].
  apply StronglySorted_app. split_and!; [|done|repeat constructor].
  intros y z Hy Hz. apply list_elem_of_singleton in Hz as ->.
  apply list_elem_of_In, in_rev, list_elem_of_In in Hy.
  rewrite Forall_forall in Hx. by apply Hx.
Qed.

Lemma StronglySorted_lookup R l a b x y :
  StronglySorted R l -> l !! a = Some x -> l !! b = Some y ->
  (a < b)%nat -> R x y.
Proof.
  intros H. revert a b. induction H as [|z l _ IH Hz]; intros a b Ha Hb Hab.
  - done.
  - destruct b as [|b]; [lia|]. destruct a as [|a]; simpl in *.
    + simplify_eq. rewrite Forall_forall in Hz.
      apply Hz. by eapply list_elem_of_lookup_2.
    + eapply IH; eauto. lia.
Qed.

Lemma slice_from_drop (start : Z) l :
  exists n, slice_from start l = drop n l.
Proof. unfold slice_from. eauto. Qed.

Lemma slice_from_neg_length (k : Z) l :
  1 <= k ->
  length (slice_from (- k) l) = Nat.min (Z.to_nat k) (length l).
Proof.
  intros Hk. unfold slice_from.
  destruct (Z.ltb_spec (- k) 0); [|lia].
  rewrite length_drop. lia.
Qed.

Lemma slice_from_nonneg_length (k : Z) l :
  k <= 0 ->
  length (slice_from (- k) l)
  = (length l - Nat.min (Z.to_nat (- k)) (length l))%nat.
Proof.
  intros Hk. unfold slice_from.
  destruct (Z.ltb_spec (- k) 0); [lia|].
  rewrite length_drop. lia.
Qed.
End ListFacts.

Lemma before_not_lt xs i j :
  before xs i j -> np_lt (nth j xs S754_nan) (nth i xs S754_nan) = false.
Proof. intros [H|[H _]]; [by apply np_lt_asym | done]. Qed.

Lemma insert_left_perm xs vi l : Permutation (insert_left xs vi l) (vi :: l).
Proof.
  induction l as [|pk rest IH]; simpl; [done|].
  destruct (np_lt _ _); [|done].
  rewrite IH. apply perm_swap.
Qed.

Lemma insert_left_sorted xs vi l :
  Forall (fun y => (y < vi)%nat) l ->
  StronglySorted (flip (before xs)) l ->
  StronglySorted (flip (before xs)) (insert_left xs vi l).
Proof.
  intros Hlt Hs. induction Hs as [|pk rest Hs IH Hpk]; simpl.
  - repeat constructor.
  - apply Forall_cons in Hlt as [Hpklt Hlt].
    destruct (np_lt (nth vi xs S754_nan) (nth pk xs S754_nan)) eqn:E.
    + constructor; [by apply IH|].
      rewrite (insert_left_perm xs vi rest).
      constructor; [by left | done].
    + constructor; [by constructor|].
      constructor; [right; done|].
      rewrite Forall_forall in Hpk, Hlt. apply Forall_forall.
      intros y Hy. right. split; [|by apply Hlt].
      eapply np_ge_trans; [exact E|]. apply before_not_lt, Hpk, Hy.
Qed.

Lemma insertion_fold xs len s acc :
  Forall (fun y => (y < s)%nat) acc ->
  StronglySorted (flip (before xs)) acc ->
  let r := fold_left (fun sorted_rev vi => insert_left xs vi sorted_rev)
                     (seq s len) acc in
  Permutation r (seq s len ++ acc) /\ StronglySorted (flip (before xs)) r.
Proof.
  revert s acc. induction len as [|len IH]; intros s acc Hlt Hs; simpl.
  - done.
  - destruct (IH (S s) (insert_left xs s acc)) as [Hp Hs'].
    + rewrite (insert_left_perm xs s acc). constructor; [lia|].
      eapply Forall_impl; [exact Hlt|]. simpl. lia.
    + by apply insert_left_sorted.
    + split; [|done]. rewrite Hp, insert_left_perm.
      by rewrite Permutation_middle.
Qed.

Lemma insertion_argsort_perm xs :
  Permutation (insertion_argsort xs) (seq 0 (length xs)).
Proof.
  unfold insertion_argsort. rewrite <- Permutation_rev.
  destruct (insertion_fold xs (length xs) 0%nat []) as [Hp _];
    [constructor..|].
  by rewrite app_nil_r in Hp.
Qed.

Lemma insertion_argsort_stable xs :
  StronglySorted (before xs) (insertion_argsort xs).
Proof.
  unfold insertion_argsort.
  destruct (insertion_fold xs (length xs) 0%nat []) as [_ Hs];
    [constructor..|].
  apply StronglySorted_rev in Hs.
  eapply StronglySorted_weaken; [|exact Hs]. done.
Qed.

Lemma insertion_argsort_sorts : sorts_ascending insertion_argsort.
Proof.
  intros xs. split; [apply insertion_argsort_perm|].
  eapply StronglySorted_weaken; [|apply insertion_argsort_stable].
  intros i j. apply before_not_lt.
Qed.

Section ListFacts2.
Context {A B : Type}.

Lemma StronglySorted_Forall2 (P : A -> B -> Prop) (R : A -> A -> Prop)
    (R' : B -> B -> Prop) l k :
  (forall x y x' y', P x x' -> P y y' -> R x y -> R' x' y') ->
  Forall2 P l k -> StronglySorted R l -> StronglySorted R' k.
Proof.
  intros HR HF. induction HF as [|x x' l k Hx HF IH]; intros Hs.
  - constructor.
  - apply StronglySorted_cons in Hs as [Hl Hs].
    constructor; [by apply IH|].
    clear IH Hs. induction HF as [|y y' l k Hy HF IH]; [done|].
    apply Forall_cons in Hl as [Hxy Hl].
    constructor; [by eapply HR | by apply IH].
Qed.

Lemma StronglySorted_on (Q : A -> Prop) (R R' : A -> A -> Prop) l :
  (forall x y, Q x -> Q y -> R x y -> R' x y) ->
  Forall Q l -> StronglySorted R l -> StronglySorted R' l.
Proof.
  intros HR HQ Hs. induction Hs as [|x l _ IH Hx]; [constructor|].
  apply Forall_cons in HQ as [Qx HQ].
  constructor; [by apply IH|].
  clear IH. induction l as [|y l IH]; [done|].
  apply Forall_cons in HQ as [Qy HQ]. apply Forall_cons in Hx as [Rxy Hx].
  constructor; [by apply HR | by apply IH].
Qed.
End ListFacts2.

Lemma rev_lookup {A} (l : list A) (i : nat) :
  (i < length l)%nat -> rev l !! i = l !! (length l - S i)%nat.
Proof.
  induction l as [|x l IH]; simpl; intros Hi; [lia|].
  destruct (decide (i < length l)%nat) as [Hlt|Hge].
  - rewrite lookup_app_l by (rewrite length_rev; lia).
    rewrite IH by done.
    by replace (length l - i)%nat with (S (length l - S i)) by lia.
  - rewrite lookup_app_r by (rewrite length_rev; lia).
    rewrite length_rev.
    replace (i - length l)%nat with 0%nat by lia.
    by replace (length l - i)%nat with 0%nat by lia.
Qed.

Lemma NoDup_drop {A} (l : list A) n : NoDup l -> NoDup (drop n l).
Proof.
  intros H. rewrite <- (take_drop n l) in H.
  by apply NoDup_app in H as (_ & _ & H).
Qed.

Section SearchFacts.
Context {np : Numpy}.

Lemma result_at_ok self sims idx :
  (idx < length (chunks self))%nat -> (idx < length sims)%nat ->
  exists r, result_at self sims idx = Ok r /\
            relevance_score r = nth idx sims S754_nan.
Proof.
  intros Hc Hs. unfold result_at.
  destruct (lookup_lt_is_Some_2 _ _ Hc) as [chunk ->].
  destruct (lookup_lt_is_Some_2 _ _ Hs) as [sim Hsim]. rewrite Hsim.
  eexists; split; [done|]. simpl.
  symmetry. by apply nth_lookup_Some.
Qed.

Lemma result_at_score self sims idx r :
  result_at self sims idx = Ok r ->
  relevance_score r = nth idx sims S754_nan.
Proof.
  unfold result_at. destruct (chunks self !! idx); [|done].
  destruct (sims !! idx) eqn:E; [|done].
  intros [= <-]. simpl. symmetry. by apply nth_lookup_Some.
Qed.

Lemma retrieve_ok self sims indices results :
  Forall (fun idx => (idx < length (chunks self))%nat /\
                     (idx < length sims)%nat) indices ->
  exists rs, retrieve self sims indices results = Ok (results ++ rs) /\
             Forall2 (fun idx r => result_at self sims idx = Ok r)
                     indices rs.
Proof.
  intros H. revert results.
  induction H as [|idx indices [Hc Hs] _ IH]; intros results; simpl.
  - exists []. by rewrite app_nil_r.
  - destruct (result_at_ok self sims idx Hc Hs) as (r & Hr & _).
    rewrite Hr. destruct (IH (results ++ [r])) as (rs & -> & HF).
    exists (r :: rs). split; [by rewrite <- app_assoc | by constructor].
Qed.

Lemma similarities_length stored model query :
  length (similarities (RegulatoryRetriever_init stored model) query)
  = length stored.
Proof. unfold similarities. simpl. by rewrite !length_map. Qed.

Lemma top_indices_in_range sims top_k :
  sorts_ascending np_argsort ->
  Forall (fun idx => (idx < length sims)%nat) (top_indices sims top_k).
Proof.
  intros Hsort. destruct (Hsort sims) as [Hp _].
  unfold top_indices. destruct (slice_from_drop (- top_k) (np_argsort sims))
    as [n ->].
  apply Forall_forall. intros idx Hin.
  apply list_elem_of_In, in_rev, list_elem_of_In in Hin.
  apply subseteq_drop in Hin.
  apply list_elem_of_In in Hin. eapply Permutation_in in Hin; [|exact Hp].
  apply in_seq in Hin. lia.
Qed.

Lemma top_indices_sorted sims top_k :
  sorts_ascending np_argsort ->
  StronglySorted
    (fun a b => np_lt (nth a sims S754_nan) (nth b sims S754_nan) = false)
    (top_indices sims top_k).
Proof.
  intros Hsort. destruct (Hsort sims) as [_ Hs].
  unfold top_indices. destruct (slice_from_drop (- top_k) (np_argsort sims))
    as [n ->].
  apply (StronglySorted_drop _ _ n), StronglySorted_rev in Hs.
  eapply StronglySorted_weaken; [|exact Hs]. done.
Qed.

Lemma search_ok stored model query top_k :
  sorts_ascending np_argsort ->
  let self := RegulatoryRetriever_init stored model in
  let sims := similarities self query in
  exists results,
    search self query top_k = Ok results /\
    Forall2 (fun idx r => result_at self sims idx = Ok r)
            (top_indices sims top_k) results.
Proof.
  intros Hsort self sims. unfold search. fold sims.
  destruct (retrieve_ok self sims (top_indices sims top_k) [])
    as (rs & Hrs & HF).
  - eapply Forall_impl; [by apply top_indices_in_range|].
    intros idx Hidx. simpl in *. split; [|done].
    unfold sims, self in Hidx. by rewrite similarities_length in Hidx.
  - by exists rs.
Qed.
Lemma result_at_init stored model query idx r :
  let self := RegulatoryRetriever_init stored model in
  result_at self (similarities self query) idx = Ok r <->
  exists chunk, stored !! idx = Some chunk /\ r = result_of model query chunk.
Proof.
  simpl. unfold result_at, similarities. simpl.
  rewrite !list_lookup_fmap.
  destruct (stored !! idx) as [chunk|]; simpl.
  - split.
    + intros [= <-]. by exists chunk.
    + intros (chunk' & [= <-] & ->). done.
  - split; [done | by intros (? & ? & _)].
Qed.

Lemma top_indices_nodup sims top_k :
  sorts_ascending np_argsort -> NoDup (top_indices sims top_k).
Proof.
  intros Hsort. destruct (Hsort sims) as [Hp _].
  unfold top_indices.
  destruct (slice_from_drop (- top_k) (np_argsort sims)) as [n ->].
  apply NoDup_ListNoDup, NoDup_rev, NoDup_ListNoDup, NoDup_drop.
  apply NoDup_ListNoDup. eapply Permutation_NoDup;
    [symmetry; exact Hp | apply seq_NoDup].
Qed.

Lemma retrieve_Forall2 self sims indices rs : forall results,
  Forall2 (fun idx r => result_at self sims idx = Ok r) indices rs ->
  retrieve self sims indices results = Ok (results ++ rs).
Proof.
  intros results H. revert results.
  induction H as [|idx r indices rs Hr _ IH]; intros results; simpl.
  - by rewrite app_nil_r.
  - rewrite Hr, IH. by rewrite <- app_assoc.
Qed.

(** The results of [search], with the corpus indices they come from. *)
Lemma search_ranked stored model query top_k :
  sorts_ascending np_argsort ->
  let self := RegulatoryRetriever_init stored model in
  let ranked := top_indices (similarities self query) top_k in
  exists results,
    search self query top_k = Ok results /\
    Forall2 (fun idx r =>
               exists chunk, stored !! idx = Some chunk /\
                             r = result_of model query chunk)
            ranked results.
Proof.
  intros Hsort self ranked.
  destruct (search_ok stored model query top_k Hsort) as (results & Hres & HF).
  exists results. split; [done|].
  eapply Forall2_impl; [exact HF|].
  intros idx r Hr. by apply result_at_init in Hr.
Qed.

(** The results of [search] are ranked, come from pairwise different
    places of the corpus, and leave out no chunk that scores higher than
    one of them. *)
Lemma search_ranked_best stored model query top_k :
  sorts_ascending np_argsort ->
  let self := RegulatoryRetriever_init stored model in
  let ranked := top_indices (similarities self query) top_k in
  exists results,
    search self query top_k = Ok results /\
    Forall2 (fun idx r =>
               exists chunk, stored !! idx = Some chunk /\
                             r = result_of model query chunk)
            ranked results /\
    NoDup ranked /\
    StronglySorted
      (fun a b => np_lt (relevance_score a) (relevance_score b) = false)
      results /\
    forall i chunk r,
      stored !! i = Some chunk -> i ∉ ranked -> r ∈ results ->
      np_lt (relevance_score r) (relevance_score (result_of model query chunk))
      = false.
Proof.
  intros Hsort self ranked.
  destruct (search_ok stored model query top_k Hsort)
    as (results & Hres & HF0).
  assert (HF : Forall2 (fun idx r =>
                          exists chunk, stored !! idx = Some chunk /\
                                        r = result_of model query chunk)
                       ranked results).
  { eapply Forall2_impl; [exact HF0|].
    intros idx r Hr. by apply result_at_init in Hr. }
  exists results. split_and!; [done | exact HF | by apply top_indices_nodup | |].
  { eapply StronglySorted_Forall2;
      [|exact HF0|exact (top_indices_sorted _ top_k Hsort)].
    intros x y x' y' Hx Hy Hxy.
    by rewrite (result_at_score _ _ _ _ Hx), (result_at_score _ _ _ _ Hy). }
  intros i chunk r Hi Hnot Hr.
  set (sims := similarities self query) in *.
  destruct (Hsort sims) as [Hp Hs].
  apply list_elem_of_lookup in Hr as [a Ha].
  destruct (Forall2_lookup_r _ _ _ _ _ HF Ha) as (j & Hj & chunk' & Hc' & ->).
  assert (Hsim : forall idx c, stored !! idx = Some c ->
            relevance_score (result_of model query c) = nth idx sims S754_nan).
  { intros idx c Hc. symmetry. apply nth_lookup_Some.
    unfold sims, similarities. simpl. rewrite !list_lookup_fmap, Hc. done. }
  rewrite (Hsim _ _ Hi), (Hsim _ _ Hc').
  unfold ranked, top_indices in Hnot, Hj.
  destruct (slice_from_drop (- top_k) (np_argsort sims)) as [n Hn].
  rewrite Hn in Hnot, Hj.
  rewrite <- (take_drop n (np_argsort sims)) in Hs, Hp.
  assert (Hin_j : j ∈ drop n (np_argsort sims)).
  { apply list_elem_of_In, in_rev, list_elem_of_In.
    by eapply list_elem_of_lookup_2. }
  assert (Hin_i : i ∈ take n (np_argsort sims)).
  { assert (Hall : i ∈ take n (np_argsort sims) ++ drop n (np_argsort sims)).
    { apply list_elem_of_In. eapply Permutation_in; [symmetry; exact Hp|].
      apply in_seq. apply lookup_lt_Some in Hi.
      unfold sims, self. rewrite similarities_length. lia. }
    apply elem_of_app in Hall as [?|Hd]; [done|].
    exfalso. apply Hnot.
    apply list_elem_of_In. rewrite <- in_rev. by apply list_elem_of_In. }
  exact (StronglySorted_app_1_elem_of _ _ _ _ _ Hs Hin_i Hin_j).
Qed.

(** The place of an index in [top_indices] and its place in the order of
    [np.argsort]: the slice counted from its end. *)
Lemma top_indices_lookup sims top_k :
  exists n : nat,
    (n <= length (np_argsort sims))%nat /\
    forall a i,
      top_indices sims top_k !! a = Some i <->
      ((n + a < length (np_argsort sims))%nat /\
       np_argsort sims !! (length (np_argsort sims) - S a)%nat = Some i).
Proof.
  unfold top_indices, slice_from.
  set (order := np_argsort sims).
  set (n := Z.to_nat _).
  exists (Nat.min n (length order)). split; [lia|].
  intros a i. split.
  - intros Ha. pose proof (lookup_lt_Some _ _ _ Ha) as Hlt.
    rewrite length_rev, length_drop in Hlt.
    rewrite rev_lookup in Ha by (rewrite length_drop; lia).
    rewrite lookup_drop, length_drop in Ha.
    split; [lia|]. rewrite <- Ha. f_equal. lia.
  - intros [Hlt Ha].
    rewrite rev_lookup by (rewrite length_drop; lia).
    rewrite lookup_drop, length_drop. rewrite <- Ha. f_equal. lia.
Qed.
End SearchFacts.

(** ** Text *)

Lemma str_app_assoc (s1 s2 s3 : string) :
  (s1 +:+ s2) +:+ s3 = s1 +:+ (s2 +:+ s3).
Proof.
  induction s1 as [|c s1 IH]; [done|].
  change (String c ((s1 +:+ s2) +:+ s3) = String c (s1 +:+ (s2 +:+ s3))).
  by f_equal.
Qed.

Lemma str_app_nil_r (s : string) : s +:+ "" = s.
Proof.
  induction s as [|c s IH]; [done|].
  change (String c (s +:+ "") = String c s). by f_equal.
Qed.

(** ** Computations on the store *)

Lemma bind_ok {A B} (m : M A) (f : A -> M B) h a h' :
  m h = (Ok a, h') -> (m ≫= f) h = f a h'.
Proof. intros H. unfold mbind, M_bind. by rewrite H. Qed.

Lemma bind_raise {A B} (m : M A) (f : A -> M B) h e h' :
  m h = (Raise e, h') -> (m ≫= f) h = (Raise e, h').
Proof. intros H. unfold mbind, M_bind. by rewrite H. Qed.

Lemma set_lists_id_insert h l items :
  lists_of h !! l = Some items -> set_lists (insert l items) h = h.
Proof.
  intros H. destruct h as [rs ts ls]. unfold set_lists. simpl in *.
  by rewrite insert_id.
Qed.

Lemma keeps_ret {A} (a : A) : keeps_objects (mret a).
Proof. by intros h. Qed.

Lemma keeps_lift {A} (r : Result A) : keeps_objects (lift r).
Proof. by intros h. Qed.

Lemma keeps_bind {A B} (m : M A) (f : A -> M B) :
  keeps_objects m -> (forall a, keeps_objects (f a)) ->
  keeps_objects (m ≫= f).
Proof.
  intros Hm Hf h. unfold mbind, M_bind.
  destruct (Hm h) as [Hr Ht]. destruct (m h) as [[a|e] h']; simpl in *.
  - destruct (Hf a h') as [Hr' Ht']. by rewrite Hr', Ht'.
  - done.
Qed.

Lemma keeps_get_row l : keeps_objects (get_row l).
Proof. intros h. unfold get_row. by destruct (rows_of h !! l). Qed.

Lemma keeps_get_template l : keeps_objects (get_template l).
Proof. intros h. unfold get_template. by destruct (templates_of h !! l). Qed.

Lemma keeps_list_append l s : keeps_objects (list_append l s).
Proof. intros h. unfold list_append. by destruct (lists_of h !! l). Qed.

Lemma keeps_calculate_rwa l : keeps_objects (calculate_rwa l).
Proof.
  unfold calculate_rwa.
  apply keeps_bind; [apply keeps_get_row|]. intros r.
  apply keeps_bind; [apply keeps_lift|]. intros q. apply keeps_ret.
Qed.

Section ValidatorFacts.
Context {py : Python}.

Lemma keeps_fields_of field locs : keeps_objects (fields_of field locs).
Proof.
  induction locs as [|l locs IH]; simpl; [apply keeps_ret|].
  apply keeps_bind; [apply keeps_get_row|]. intros r.
  apply keeps_bind; [exact IH|]. intros items. apply keeps_ret.
Qed.

Lemma keeps_validate_totals l : keeps_objects (validate_totals l).
Proof.
  unfold validate_totals.
  apply keeps_bind; [apply keeps_get_template|]. intros t.
  apply keeps_bind; [apply keeps_fields_of|]. intros es.
  apply keeps_bind; [apply keeps_fields_of|]. intros ws.
  apply keeps_ret.
Qed.

Lemma keeps_validate_row self row : keeps_objects (validate_row self row).
Proof.
  unfold validate_row.
  apply keeps_bind; [apply keeps_get_row|]. intros r.
  apply keeps_bind; [apply keeps_calculate_rwa|]. intros x.
  apply keeps_bind; [|intros; apply keeps_ret].
  destruct (regulatory_references r);
    [apply keeps_list_append | apply keeps_ret].
Qed.

Lemma keeps_validate_rows self i locs all_errors :
  keeps_objects (validate_rows self i locs all_errors).
Proof.
  revert i all_errors. induction locs as [|l locs IH]; intros i all_errors;
    simpl; [apply keeps_ret|].
  apply keeps_bind; [apply keeps_validate_row|]. intros errs. apply IH.
Qed.

Lemma keeps_validate_template self template :
  keeps_objects (validate_template self template).
Proof.
  unfold validate_template.
  apply keeps_bind; [apply keeps_get_template|]. intros t.
  apply keeps_bind; [apply keeps_validate_rows|]. intros errs.
  apply keeps_bind; [apply keeps_validate_totals|]. intros errs'.
  apply keeps_ret.
Qed.

(** ** One row *)

Lemma calculate_rwa_ok row r h :
  rows_of h !! row = Some r ->
  weight_in_float_range r = true ->
  calculate_rwa row h
  = (Ok (expected_rwa (original_exposure_value r) (risk_weight_percent r)),
     h).
Proof.
  intros Hrow Hw. unfold calculate_rwa.
  erewrite bind_ok; [|unfold get_row; by rewrite Hrow].
  unfold weight_in_float_range in Hw. apply negb_true_iff in Hw.
  unfold mbind, M_bind, lift, int_truediv. by rewrite Hw.
Qed.

Lemma weight_check_agrees (w : Z) :
  (w <? 0) || (1250 <? w) = negb ((0 <=? w) && (w <=? 1250)).
Proof.
  destruct (Z.ltb_spec w 0), (Z.ltb_spec 1250 w), (Z.leb_spec 0 w),
    (Z.leb_spec w 1250); simpl; try done; lia.
Qed.

Lemma validate_row_ok self row r ws h :
  rows_of h !! row = Some r ->
  lists_of h !! warnings self = Some ws ->
  weight_in_float_range r = true ->
  validate_row self row h
  = (Ok (row_violations r),
     set_lists (insert (warnings self) (ws ++ row_warnings r)) h).
Proof.
  intros Hrow Hws Hw. unfold validate_row.
  erewrite bind_ok; [|unfold get_row; by rewrite Hrow].
  erewrite bind_ok; [|by apply calculate_rwa_ok].
  rewrite weight_check_agrees.
  unfold row_violations, violations, row_warnings. simpl.
  unfold beyond_tolerance.
  set (exposure := original_exposure_value r).
  set (weight := risk_weight_percent r).
  set (rwa := risk_weighted_assets r).
  assert (Hstate :
    (match regulatory_references r with
     | [] => list_append (warnings self)
               ("No regulatory references for " +:+ value (exposure_class r))
     | _ :: _ => mret ()
     end) h
    = (Ok (),
       set_lists (insert (warnings self)
         (ws ++ match regulatory_references r with
                | [] => ["No regulatory references for "
                         +:+ value (exposure_class r)]
                | _ :: _ => []
                end)) h)).
  { destruct (regulatory_references r).
    - unfold list_append. by rewrite Hws.
    - rewrite app_nil_r, set_lists_id_insert by done. done. }
  erewrite bind_ok; [|exact Hstate].
  unfold mret, M_ret. f_equal. f_equal.
  destruct (leb exposure zero),
    (negb ((0 <=? weight) && (weight <=? 1250))),
    (ltb lit_0_01 (abs (sub rwa (expected_rwa exposure weight))));
    reflexivity.
Qed.
End ValidatorFacts.

Lemma set_lists_insert_twice h l a b :
  set_lists (insert l b) (set_lists (insert l a) h) = set_lists (insert l b) h.
Proof. unfold set_lists. simpl. by rewrite insert_insert_eq. Qed.

Lemma lists_of_set_insert h l a :
  lists_of (set_lists (insert l a) h) !! l = Some a.
Proof. simpl. apply lookup_insert_eq. Qed.

Section TemplateFacts.
Context {py : Python}.

(** ** All rows *)

Lemma validate_rows_ok self locs rs : forall i ws all_errors h,
  Forall2 (fun l r => rows_of h !! l = Some r) locs rs ->
  lists_of h !! warnings self = Some ws ->
  Forall (fun r => weight_in_float_range r = true) rs ->
  validate_rows self i locs all_errors h
  = (Ok (all_errors ++ rows_violations i rs),
     set_lists (insert (warnings self)
                       (ws ++ concat (map row_warnings rs))) h).
Proof.
  revert rs. induction locs as [|l locs IH];
    intros rs i ws all_errors h Hrows Hws Hw.
  - apply Forall2_nil_inv_l in Hrows as ->. simpl.
    rewrite !app_nil_r, set_lists_id_insert by done. done.
  - apply Forall2_cons_inv_l in Hrows as (r & rs' & Hr & Hrows & ->).
    apply Forall_cons in Hw as [Hwr Hw]. simpl.
    erewrite bind_ok; [|exact (validate_row_ok self l r ws h Hr Hws Hwr)].
    rewrite (IH rs' (S i) (ws ++ row_warnings r) _
                (set_lists (insert (warnings self) (ws ++ row_warnings r)) h)
                Hrows (lists_of_set_insert _ _ _) Hw).
    rewrite set_lists_insert_twice, <- !app_assoc.
    f_equal. f_equal.
    destruct (row_violations r); simpl; [done | by rewrite <- app_assoc].
Qed.

Lemma fields_of_ok field locs rs h :
  Forall2 (fun l r => rows_of h !! l = Some r) locs rs ->
  fields_of field locs h = (Ok (map field rs), h).
Proof.
  induction 1 as [|l r locs rs Hr _ IH]; simpl; [done|].
  erewrite bind_ok; [|unfold get_row; by rewrite Hr].
  erewrite bind_ok; [|exact IH]. done.
Qed.

Lemma validate_totals_ok template t rs h :
  templates_of h !! template = Some t ->
  Forall2 (fun l r => rows_of h !! l = Some r) (rows t) rs ->
  validate_totals template h = (Ok (totals_violations rs t), h).
Proof.
  intros Ht Hrows. unfold validate_totals.
  erewrite bind_ok; [|unfold get_template; by rewrite Ht].
  erewrite bind_ok; [|by eapply fields_of_ok].
  erewrite bind_ok; [|by eapply fields_of_ok].
  unfold totals_violations, beyond_tolerance.
  by repeat destruct (ltb _ _).
Qed.

Lemma validate_template_ok self template t rs ws h :
  templates_of h !! template = Some t ->
  Forall2 (fun l r => rows_of h !! l = Some r) (rows t) rs ->
  lists_of h !! warnings self = Some ws ->
  Forall (fun r => weight_in_float_range r = true) rs ->
  let errs := rows_violations 0 rs ++ totals_violations rs t in
  validate_template self template h
  = (Ok {| is_valid := Nat.eqb (length errs) 0;
           report_errors := errs;
           report_warnings := warnings self |},
     set_lists (insert (warnings self)
                       (ws ++ concat (map row_warnings rs))) h).
Proof.
  intros Ht Hrows Hws Hw errs. unfold validate_template.
  erewrite bind_ok; [|unfold get_template; by rewrite Ht].
  erewrite bind_ok;
    [|exact (validate_rows_ok self (rows t) rs 0%nat ws [] h Hrows Hws Hw)].
  erewrite bind_ok; [|by eapply validate_totals_ok].
  done.
Qed.


(** ** The audit trail *)

Lemma trail_references_lines refs trail :
  trail_references refs trail = trail +:+ references_lines refs.
Proof.
  revert trail. induction refs as [|ref refs IH]; intros trail; simpl.
  - by rewrite str_app_nil_r.
  - rewrite IH. unfold reference_lines. by rewrite !str_app_assoc.
Qed.

Lemma format_int_ok z :
  within_str_digits z = true -> format_int z = Ok (str_int z).
Proof. unfold format_int. by intros ->. Qed.

Lemma format_int_raise z :
  within_str_digits z = false -> format_int z = Raise ValueError.
Proof. unfold format_int. by intros ->. Qed.

(** The loop on rows that all have a weight it can write. *)
Lemma trail_rows_sections locs rs h : forall i trail,
  Forall2 (fun l r => rows_of h !! l = Some r) locs rs ->
  Forall (fun r => weight_has_text r = true) rs ->
  trail_rows i locs trail h = (Ok (trail +:+ row_sections i rs), h).
Proof.
  intros i trail H. revert i trail.
  induction H as [|l r locs rs Hr _ IH]; intros i trail Hw; simpl.
  - by rewrite str_app_nil_r.
  - apply Forall_cons in Hw as [Hw Hws].
    erewrite bind_ok; [|unfold get_row; by rewrite Hr].
    erewrite bind_ok; [|unfold lift; by rewrite (format_int_ok _ Hw)].
    rewrite IH, trail_references_lines by done. unfold row_section.
    by rewrite !str_app_assoc.
Qed.

(** The loop on rows the first of which has a weight it cannot write. *)
Lemma trail_rows_raises locs rs h : forall i trail,
  Forall2 (fun l r => rows_of h !! l = Some r) locs rs ->
  forallb weight_has_text rs = false ->
  trail_rows i locs trail h = (Raise ValueError, h).
Proof.
  intros i trail H. revert i trail.
  induction H as [|l r locs rs Hr _ IH]; intros i trail Hw; simpl in *.
  - done.
  - erewrite bind_ok; [|unfold get_row; by rewrite Hr].
    destruct (weight_has_text r) eqn:Hr_w; simpl in Hw.
    + erewrite bind_ok; [|unfold lift; by rewrite (format_int_ok _ Hr_w)].
      by rewrite IH.
    + erewrite bind_raise; [done|].
      unfold lift. by rewrite (format_int_raise _ Hr_w).
Qed.
End TemplateFacts.

(** * The similarity search *)

Section SearchTheorems.
Context {np : Numpy}.

(** Claim C1.  On a loaded corpus, for every query and every [top_k] of
    at least 1, [search] returns (raises nothing) a list of
    [min(top_k, corpus size)] results, also when [top_k] exceeds the size
    of the corpus, and their [relevance_score]s never increase along the
    list: in the order numpy sorts by, and, the scores being numbers (no
    NaN, as with the unit vectors of the sentence embedder), in the order
    of the floats.  [np.argsort] is any function that sorts. *)
Theorem search_returns_top_k_ranked stored model query top_k :
  sorts_ascending np_argsort ->
  1 <= top_k ->
  exists results,
    search (RegulatoryRetriever_init stored model) query top_k
    = Ok results /\
    length results = Nat.min (Z.to_nat top_k) (length stored) /\
    StronglySorted
      (fun a b => np_lt (relevance_score a) (relevance_score b) = false)
      results /\
    (Forall (fun r => is_nan (relevance_score r) = false) results ->
     StronglySorted
       (fun a b => leb (relevance_score b) (relevance_score a) = true)
       results).
Proof.
  intros Hsort Hk.
  destruct (search_ok stored model query top_k Hsort)
    as (results & Hres & HF).
  set (self := RegulatoryRetriever_init stored model) in *.
  set (sims := similarities self query) in *.
  assert (Hnp : StronglySorted
    (fun a b => np_lt (relevance_score a) (relevance_score b) = false)
    results).
  { eapply StronglySorted_Forall2;
      [|exact HF|exact (top_indices_sorted sims top_k Hsort)].
    intros x y x' y' Hx Hy Hxy.
    by rewrite (result_at_score _ _ _ _ Hx), (result_at_score _ _ _ _ Hy). }
  exists results. split_and!; [done| |done|].
  - rewrite <- (Forall2_length _ _ _ HF). unfold top_indices.
    rewrite length_rev, slice_from_neg_length by done.
    destruct (Hsort sims) as [Hp _]. apply Permutation_length in Hp.
    rewrite Hp, length_seq. unfold sims, self.
    by rewrite similarities_length.
  - intros Hnan. eapply StronglySorted_on; [|exact Hnan|exact Hnp].
    intros x y Hx Hy. by apply np_lt_false_leb.
Qed.

(** Claim C4, as the code has it.  [search] checks no argument: with
    [top_k <= 0] it raises nothing and returns the ranked chunks of the
    corpus without the [-top_k] lowest-scoring ones (all of them for
    [top_k = 0]).  The results are [length stored - (-top_k)] chunks from
    pairwise different places of the corpus, each with its own score, in
    an order in which the scores never increase, and every chunk that is
    left out scores no higher than any result.  [ranked] is the list of
    the corpus indices of the results, in the order of the results. *)
Theorem search_nonpositive_top_k_returns stored model query top_k :
  sorts_ascending np_argsort ->
  top_k <= 0 ->
  exists ranked results,
    search (RegulatoryRetriever_init stored model) query top_k
    = Ok results /\
    length results = (length stored - Z.to_nat (- top_k))%nat /\
    NoDup ranked /\
    Forall2 (fun idx r =>
               exists chunk, stored !! idx = Some chunk /\
                             r = result_of model query chunk)
            ranked results /\
    StronglySorted
      (fun a b => np_lt (relevance_score a) (relevance_score b) = false)
      results /\
    forall i chunk r,
      stored !! i = Some chunk -> i ∉ ranked -> r ∈ results ->
      np_lt (relevance_score r) (relevance_score (result_of model query chunk))
      = false.
Proof.
  intros Hsort Hk.
  destruct (search_ranked_best stored model query top_k Hsort)
    as (results & Hres & HF & Hnodup & Hsorted & Hbest).
  eexists _, results. split_and!; [done| |exact Hnodup|exact HF|done|done].
  rewrite <- (Forall2_length _ _ _ HF). unfold top_indices.
  rewrite length_rev, slice_from_nonneg_length by done.
  destruct (Hsort (similarities (RegulatoryRetriever_init stored model)
                                query)) as [Hp _].
  apply Permutation_length in Hp.
  rewrite Hp, length_seq, similarities_length. lia.
Qed.

(** Claim C5, as the code has it.  On a corpus of no chunk [search]
    raises nothing: it returns the empty list, for every query and every
    [top_k]. *)
Theorem search_empty_corpus_returns_nothing model query top_k :
  sorts_ascending np_argsort ->
  search (RegulatoryRetriever_init [] model) query top_k = Ok [].
Proof.
  intros Hsort.
  destruct (search_ok [] model query top_k Hsort) as (results & Hres & HF).
  rewrite Hres. f_equal.
  pose proof (top_indices_in_range
    (similarities (RegulatoryRetriever_init [] model) query) top_k Hsort)
    as Hrange.
  destruct (top_indices _ top_k) as [|idx rest].
  - by apply Forall2_nil_inv_l in HF.
  - apply Forall_cons in Hrange as [Hidx _]. simpl in Hidx. lia.
Qed.

End SearchTheorems.

Lemma search_returns_top_k_ranked_witness :
  sorts_ascending insertion_argsort /\ 1 <= 2 /\
  exists results,
    @search numpy_scalar (RegulatoryRetriever_init corpus3 letter_embedder)
            "unrated corporate exposure" 2
    = Ok results /\
    length results = Nat.min (Z.to_nat 2) (length corpus3) /\
    StronglySorted
      (fun a b => np_lt (relevance_score a) (relevance_score b) = false)
      results /\
    (Forall (fun r => is_nan (relevance_score r) = false) results ->
     StronglySorted
       (fun a b => leb (relevance_score b) (relevance_score a) = true)
       results).
Proof.
  split; [exact insertion_argsort_sorts|]. split; [lia|].
  apply (@search_returns_top_k_ranked numpy_scalar corpus3 letter_embedder
           "unrated corporate exposure" 2);
    [exact insertion_argsort_sorts | lia].
Defined.

(** C4 fails on the code: with [top_k = 0] the whole corpus comes back,
    ranked. *)
Lemma search_top_k_zero_returns_all :
  exists results,
    @search numpy_scalar (RegulatoryRetriever_init corpus3 letter_embedder)
            "unrated corporate exposure" 0
    = Ok results /\
    map source results = ["Article 122"; "Article 114"; "Article 125"].
Proof. eexists. split; [vm_compute; reflexivity | reflexivity]. Qed.

Lemma search_nonpositive_top_k_returns_witness :
  sorts_ascending insertion_argsort /\ -1 <= 0 /\
  exists ranked results,
    @search numpy_scalar (RegulatoryRetriever_init corpus3 letter_embedder)
            "unrated corporate exposure" (-1)
    = Ok results /\
    length results = (length corpus3 - Z.to_nat (- -1))%nat /\
    NoDup ranked /\
    Forall2 (fun idx r =>
               exists chunk, corpus3 !! idx = Some chunk /\
                 r = @result_of numpy_scalar letter_embedder
                       "unrated corporate exposure" chunk)
            ranked results /\
    StronglySorted
      (fun a b => np_lt (relevance_score a) (relevance_score b) = false)
      results /\
    forall i chunk r,
      corpus3 !! i = Some chunk -> i ∉ ranked -> r ∈ results ->
      np_lt (relevance_score r)
            (relevance_score (@result_of numpy_scalar letter_embedder
                                "unrated corporate exposure" chunk))
      = false.
Proof.
  split; [exact insertion_argsort_sorts|]. split; [lia|].
  apply (@search_nonpositive_top_k_returns numpy_scalar corpus3
           letter_embedder "unrated corporate exposure" (-1));
    [exact insertion_argsort_sorts | lia].
Defined.

(** C5 fails on the code: the search of an empty corpus is the empty list,
    not a failure. *)
Lemma search_empty_corpus_is_ok :
  @search numpy_scalar (RegulatoryRetriever_init [] letter_embedder)
          "unrated corporate exposure" 3
  = Ok [].
Proof. vm_compute. reflexivity. Qed.

Lemma search_empty_corpus_returns_nothing_witness :
  sorts_ascending insertion_argsort /\
  @search numpy_scalar (RegulatoryRetriever_init [] letter_embedder)
          "residential mortgage" 3
  = Ok [].
Proof.
  split; [exact insertion_argsort_sorts|].
  apply (@search_empty_corpus_returns_nothing numpy_scalar letter_embedder
           "residential mortgage" 3).
  exact insertion_argsort_sorts.
Defined.

(** C6 fails on the code where [np.argsort] lists tied indices in the
    order of the array, as a stable sort does: of two chunks with the same
    score, the one that comes later in the corpus is returned first. *)
Lemma search_tie_returns_later_chunk_first :
  exists score,
    @search numpy_scalar (RegulatoryRetriever_init twin_corpus letter_embedder)
            "unrated corporate exposure" 2
    = Ok [ {| text := "corporate exposures"; article_number := 122;
              source := "second copy"; relevance_score := score |};
           {| text := "corporate exposures"; article_number := 122;
              source := "first copy"; relevance_score := score |} ].
Proof. eexists. vm_compute. reflexivity. Qed.

Section SearchTies.
Context {np : Numpy}.

(** Claim C6, as the code has it.  [search] has no rule of its own for
    ties: it takes the order in which [np.argsort] (the default sort, not
    a stable one) lists the indices, and reverses it.  For every argsort
    that sorts: of any two returned chunks, and so of two with tied
    scores, the one that [np.argsort] lists later is ranked earlier.  And
    where [np.argsort] lists tied indices in the order of the corpus, as a
    stable sort does, the reversal ranks the later chunk of the corpus
    first, not the earlier one.  [ranked] is the list of the corpus
    indices of the results, in the order of the results. *)
Theorem search_ties_follow_argsort_reversed stored model query top_k :
  sorts_ascending np_argsort ->
  let self := RegulatoryRetriever_init stored model in
  let sims := similarities self query in
  let order := np_argsort sims in
  exists ranked results,
    search self query top_k = Ok results /\
    Forall2 (fun idx r =>
               exists chunk, stored !! idx = Some chunk /\
                             r = result_of model query chunk)
            ranked results /\
    (forall a b i j,
       ranked !! a = Some i ->
       ranked !! b = Some j ->
       ((a < b)%nat <-> listed_before order j i)) /\
    (StronglySorted (before sims) order ->
     forall a b i j,
       ranked !! a = Some i ->
       ranked !! b = Some j ->
       tied (nth i sims S754_nan) (nth j sims S754_nan) ->
       (i < j)%nat ->
       (b < a)%nat).
Proof.
  intros Hsort self sims order.
  destruct (search_ranked stored model query top_k Hsort)
    as (results & Hres & HF).
  exists (top_indices sims top_k), results.
  split_and!; [done | exact HF | |].
  - destruct (top_indices_lookup sims top_k) as (n & Hn & Hlook).
    fold order in Hn, Hlook.
    assert (Hnodup : NoDup order).
    { destruct (Hsort sims) as [Hp _]. apply NoDup_ListNoDup.
      eapply Permutation_NoDup; [symmetry; exact Hp | apply seq_NoDup]. }
    intros a b i j Ha Hb.
    apply Hlook in Ha as [Hla Ha]. apply Hlook in Hb as [Hlb Hb].
    split.
    + intros Hab. exists (length order - S b)%nat, (length order - S a)%nat.
      split_and!; [lia | done | done].
    + intros (x & y & Hxy & Hx & Hy).
      pose proof (NoDup_lookup _ _ _ _ Hnodup Hx Hb) as ->.
      pose proof (NoDup_lookup _ _ _ _ Hnodup Hy Ha) as ->.
      lia.
  - intros Hstable a b i j Ha Hb [Hij Hji] Hlt.
    assert (Hs : StronglySorted (flip (before sims)) (top_indices sims top_k)).
    { unfold top_indices. fold order.
      destruct (slice_from_drop (- top_k) order) as [n ->].
      by apply StronglySorted_rev, StronglySorted_drop. }
    destruct (Nat.lt_trichotomy a b) as [Hab|[->|Hab]]; [| |done].
    + pose proof (StronglySorted_lookup _ _ _ _ _ _ Hs Ha Hb Hab) as Hbefore.
      destruct Hbefore as [Hnp|[_ Hnp]]; [congruence | lia].
    + rewrite Ha in Hb. injection Hb as ->. lia.
Qed.

End SearchTies.

Lemma search_ties_follow_argsort_reversed_witness :
  sorts_ascending insertion_argsort /\
  let self := RegulatoryRetriever_init twin_corpus letter_embedder in
  let sims := @similarities numpy_scalar self "central government" in
  let order := insertion_argsort sims in
  StronglySorted (before sims) order /\
  exists ranked results,
    @search numpy_scalar self "central government" 2 = Ok results /\
    Forall2 (fun idx r =>
               exists chunk, twin_corpus !! idx = Some chunk /\
                 r = @result_of numpy_scalar letter_embedder
                       "central government" chunk)
            ranked results /\
    (forall a b i j,
       ranked !! a = Some i ->
       ranked !! b = Some j ->
       ((a < b)%nat <-> listed_before order j i)) /\
    (StronglySorted (before sims) order ->
     forall a b i j,
       ranked !! a = Some i ->
       ranked !! b = Some j ->
       tied (nth i sims S754_nan) (nth j sims S754_nan) ->
       (i < j)%nat ->
       (b < a)%nat).
Proof.
  split; [exact insertion_argsort_sorts|].
  split; [apply insertion_argsort_stable|].
  exact (@search_ties_follow_argsort_reversed numpy_scalar twin_corpus
           letter_embedder "central government" 2 insertion_argsort_sorts).
Defined.

(** * Numbers and text *)

(** The literal [0.01] is the float nearest to one hundredth. *)
Example lit_0_01_is_a_hundredth : int_truediv 1 100 = Ok lit_0_01.
Proof. reflexivity. Qed.

Example int_truediv_35_100 :
  int_truediv 35 100 = Ok (S754_finite false 6305039478318694 (-54)).
Proof. reflexivity. Qed.

(** [repr] of 50000000.0, 0.01, 0.1 + 0.2, 1 / 3, 1e16, 1e23 (the float
    just below the decimal), 2.0 ** 50 + 0.25 (a tie) and the least
    positive float. *)
Example repr_float_samples :
  map repr_float
      [ of_int 50000000;
        lit_0_01;
        add (div (of_Z 1) (of_Z 10)) (div (of_Z 2) (of_Z 10));
        div (of_Z 1) (of_Z 3);
        of_int (10 ^ 16);
        S754_finite false 5960464477539062 24;
        S754_finite false 4503599627370497 (-2);
        S754_finite false 1 (-1074);
        S754_zero true ]
  = [ "50000000.0"; "0.01"; "0.30000000000000004"; "0.3333333333333333";
      "1e+16"; "1e+23"; "1125899906842624.2"; "5e-324"; "-0.0" ].
Proof. vm_compute. reflexivity. Qed.

(** [format(x, ",.0f")] of 50000000.0, 1234567.5, 2.5, 3.5, -5.0, -0.4 and
    a NaN. *)
Example format_comma_0f_samples :
  map format_comma_0f
      [ of_int 50000000;
        div (of_Z 2469135) (of_Z 2);
        div (of_Z 5) (of_Z 2);
        div (of_Z 7) (of_Z 2);
        of_int (-5);
        div (of_Z (-2)) (of_Z 5);
        S754_nan ]
  = [ "50,000,000"; "1,234,568"; "2"; "4"; "-5"; "-0"; "nan" ].
Proof. vm_compute. reflexivity. Qed.

(** * The numeric validator *)

(** The weights the schema admits, 0 to 1250, are in the range of a
    float. *)
Lemma schema_weight_in_float_range (r : CR1Row) :
  0 <= risk_weight_percent r <= 1250 -> weight_in_float_range r = true.
Proof.
  assert (H : forallb
            (fun n => negb (is_inf (div (of_Z (Z.of_nat n)) (of_Z 100))))
            (seq 0 1251) = true) by (vm_compute; reflexivity).
  intros Hw. rewrite forallb_forall in H.
  specialize (H (Z.to_nat (risk_weight_percent r))).
  rewrite Z2Nat.id in H by lia. apply H, in_seq. lia.
Qed.

Example sample_validator_made :
  CR1Validator_init sample_objects = (Ok sample_validator, sample_heap).
Proof. vm_compute. reflexivity. Qed.

(** The two rows of the specification's examples. *)
Example validate_row_sound_row :
  (validate_row sample_validator 0%nat sample_heap).1 = Ok [].
Proof. vm_compute. reflexivity. Qed.

Example validate_row_wrong_rwa :
  (validate_row sample_validator 0%nat
     (set_rows (insert 0%nat (with_rwa (of_int 40000000) corporate_row))
               sample_heap)).1
  = Ok ["RWA mismatch: declared 40000000.0, calculated 50000000.0"].
Proof. vm_compute. reflexivity. Qed.

Section ValidatorTheorems.
Context {py : Python}.

(** The three messages begin differently. *)
Lemma error_text_inj exposure weight rwa inv inv' :
  error_text exposure weight rwa inv = error_text exposure weight rwa inv' ->
  inv = inv'.
Proof.
  intros H. apply (f_equal (String.substring 0 9)) in H.
  destruct inv, inv'; try done; vm_compute in H; discriminate.
Qed.




(** Two calls in a row on the same validator and template return the
    same report, whose [warnings] is the validator's list both times;
    that list holds the warnings of the rows once more after each
    call. *)
Lemma validate_template_again self template t rs ws h :
  templates_of h !! template = Some t ->
  Forall2 (fun l r => rows_of h !! l = Some r) (rows t) rs ->
  lists_of h !! warnings self = Some ws ->
  Forall (fun r => weight_in_float_range r = true) rs ->
  let added := concat (map row_warnings rs) in
  exists report h1 h2,
    validate_template self template h = (Ok report, h1) /\
    validate_template self template h1 = (Ok report, h2) /\
    lists_of h1 !! report_warnings report = Some (ws ++ added) /\
    lists_of h2 !! report_warnings report = Some ((ws ++ added) ++ added).
Proof.
  intros Ht Hrows Hws Hw added.
  eexists _, _, _. split; [by eapply validate_template_ok|].
  split.
  - eapply validate_template_ok; [exact Ht | exact Hrows | | exact Hw].
    apply lists_of_set_insert.
  - split; apply lookup_insert_eq.
Qed.

(** Claim C10.  Neither [validate_row] nor [validate_template] writes to
    a row or to a template: every such object of the store, with all its
    fields, is after the call what it was before, whatever the call
    returns or raises. *)
Theorem validation_keeps_rows_and_templates self row template h :
  rows_of (validate_row self row h).2 = rows_of h /\
  templates_of (validate_row self row h).2 = templates_of h /\
  rows_of (validate_template self template h).2 = rows_of h /\
  templates_of (validate_template self template h).2 = templates_of h.
Proof.
  destruct (keeps_validate_row self row h) as [? ?].
  destruct (keeps_validate_template self template h) as [? ?].
  done.
Qed.

End ValidatorTheorems.

(** Claim C9, as the code has it.  [generate_audit_trail] validates
    nothing: for every list of rows, sound or not, citing or not, whose
    risk weights are ints of at most 4300 digits, it returns the heading
    followed by one section for each row, in the order of the list, with
    the label of its exposure class, its exposure, its risk weight, its
    RWA and the source and the excerpt of each of its references, in their
    order.  It is not total: when the risk weight of some row has more
    digits than that, writing it raises [ValueError] and no trail is
    returned.  Either way the store is left as it was. *)
Theorem generate_audit_trail_ok_unless_long_weight self locs rs h :
  Forall2 (fun l r => rows_of h !! l = Some r) locs rs ->
  generate_audit_trail self locs h
  = (if forallb weight_has_text rs
     then Ok (trail_header +:+ row_sections 1 rs)
     else Raise ValueError,
     h).
Proof.
  intros Hrows. unfold generate_audit_trail.
  destruct (forallb weight_has_text rs) eqn:Hw.
  - assert (Hall : Forall (fun r => weight_has_text r = true) rs).
    { apply Forall_forall. intros r Hr. rewrite forallb_forall in Hw.
      apply Hw. by apply list_elem_of_In. }
    rewrite (trail_rows_sections locs rs h _ _ Hrows Hall).
    unfold trail_header. by rewrite !str_app_assoc.
  - by rewrite (trail_rows_raises locs rs h _ _ Hrows Hw).
Qed.

(** Claim C8, at an input where the code departs from it.  Two calls of
    [validate_template] on the same validator and the same template: the
    second report shows the warning of the first call once more. *)
Theorem validate_template_twice_accumulates_warnings :
  (repeat_call (@validate_and_read sum_left_to_right sample_validator 0%nat)
               2 sample_heap).1
  = Ok [ (true, [],
          ["No regulatory references for "
           +:+ value RESIDENTIAL_MORTGAGES]);
         (true, [],
          ["No regulatory references for "
           +:+ value RESIDENTIAL_MORTGAGES;
           "No regulatory references for "
           +:+ value RESIDENTIAL_MORTGAGES]) ].
Proof. vm_compute. reflexivity. Qed.

(** ** The theorems at the sample rows *)




Lemma generate_audit_trail_ok_unless_long_weight_witness :
  Forall2 (fun l r => rows_of sample_heap !! l = Some r)
          [0; 2; 1]%nat [corporate_row; broken_row; mortgage_row] /\
  generate_audit_trail sample_validator [0; 2; 1]%nat sample_heap
  = (if forallb weight_has_text [corporate_row; broken_row; mortgage_row]
     then Ok (trail_header
              +:+ row_sections 1 [corporate_row; broken_row; mortgage_row])
     else Raise ValueError,
     sample_heap).
Proof.
  assert (Hrows : Forall2 (fun l r => rows_of sample_heap !! l = Some r)
                    [0; 2; 1]%nat [corporate_row; broken_row; mortgage_row])
    by (repeat constructor).
  split; [exact Hrows|].
  exact (generate_audit_trail_ok_unless_long_weight sample_validator
           [0; 2; 1]%nat [corporate_row; broken_row; mortgage_row]
           sample_heap Hrows).
Defined.

(** C9 fails on the code: a row whose risk weight has 4301 digits has no
    audit trail, [generate_audit_trail] raises [ValueError] on it. *)
Lemma generate_audit_trail_raises_on_long_weight :
  rows_of long_weight_heap !! 2%nat = Some long_weight_row /\
  risk_weight_percent long_weight_row = 10 ^ 4300 /\
  generate_audit_trail sample_validator [0; 2; 1]%nat long_weight_heap
  = (Raise ValueError, long_weight_heap).
Proof. split_and!; [reflexivity | reflexivity | vm_compute; reflexivity]. Qed.

(** The weights the schema admits, 0 to 1250, and the rows of the
    examples have a weight that can be written. *)
Lemma schema_weight_has_text (r : CR1Row) :
  0 <= risk_weight_percent r <= 1250 -> weight_has_text r = true.
Proof.
  intros Hw. unfold weight_has_text, within_str_digits, int_max_str_digits.
  apply Z.ltb_lt.
  assert (2 ^ 11 <= 10 ^ 4300).
  { transitivity (10 ^ 11); [|apply Z.pow_le_mono_r; lia].
    apply Z.pow_le_mono_l. lia. }
  change (2 ^ 11) with 2048 in *. lia.
Qed.

(** ** The specification's examples of a template *)

Example validate_template_sound_totals :
  (@validate_and_read sum_left_to_right sample_validator 0%nat
     sample_heap).1
  = Ok (true, [],
        ["No regulatory references for " +:+ value RESIDENTIAL_MORTGAGES]).
Proof. vm_compute. reflexivity. Qed.

Example validate_template_short_total :
  (@validate_and_read sum_left_to_right sample_validator 1%nat
     sample_heap).1
  = Ok (false,
        ["Total RWA mismatch: declared 49999999.0, calculated 50000000.0"],
        ["No regulatory references for " +:+ value RESIDENTIAL_MORTGAGES]).
Proof. vm_compute. reflexivity. Qed.

(** The report holds the validator's own list: after a second call the
    first report shows two warnings as well. *)
Example first_report_shares_the_warnings :
  (@validate_twice_then_read sum_left_to_right sample_validator 0%nat
     sample_heap).1
  = Ok (["No regulatory references for " +:+ value RESIDENTIAL_MORTGAGES;
         "No regulatory references for " +:+ value RESIDENTIAL_MORTGAGES],
        ["No regulatory references for " +:+ value RESIDENTIAL_MORTGAGES;
         "No regulatory references for " +:+ value RESIDENTIAL_MORTGAGES]).
Proof. vm_compute. reflexivity. Qed.

(** A weight beyond the range of a float: [calculate_rwa] raises, and so
    does [validate_row]. *)
Example calculate_rwa_overflows :
  let huge := {| exposure_class := RETAIL;
                 original_exposure_value := of_int 1;
                 risk_weight_percent := 10 ^ 400;
                 risk_weighted_assets := of_int 1;
                 regulatory_references := [] |} in
  (validate_row sample_validator 2%nat
     (set_rows (insert 2%nat huge) sample_heap)).1
  = Raise OverflowError.
Proof. vm_compute. reflexivity. Qed.

(** * More on the similarity search *)

Section SearchMore.
Context {np : Numpy}.

(** [search] returns chunks of the corpus, each with its own text,
    article number, source and cosine score, and returns no chunk twice:
    the results come from pairwise different positions of the corpus. *)
Theorem search_results_are_distinct_chunks stored model query top_k :
  sorts_ascending np_argsort ->
  exists ranked results,
    search (RegulatoryRetriever_init stored model) query top_k = Ok results /\
    NoDup ranked /\
    Forall2 (fun idx r =>
               exists chunk, stored !! idx = Some chunk /\
                             r = result_of model query chunk)
            ranked results.
Proof.
  intros Hsort.
  destruct (search_ranked stored model query top_k Hsort)
    as (results & Hres & HF).
  eexists _, results. split_and!; [done| |exact HF].
  by apply top_indices_nodup.
Qed.

(** [search] keeps the best: a chunk of the corpus that is not among the
    results scores no higher than any result (in the order numpy sorts
    by). *)
Theorem search_leaves_out_only_lower_scores stored model query top_k :
  sorts_ascending np_argsort ->
  exists ranked results,
    search (RegulatoryRetriever_init stored model) query top_k = Ok results /\
    Forall2 (fun idx r =>
               exists chunk, stored !! idx = Some chunk /\
                             r = result_of model query chunk)
            ranked results /\
    forall i chunk r,
      stored !! i = Some chunk -> i ∉ ranked -> r ∈ results ->
      np_lt (relevance_score r) (relevance_score (result_of model query chunk))
      = false.
Proof.
  intros Hsort.
  destruct (search_ranked_best stored model query top_k Hsort)
    as (results & Hres & HF & _ & _ & Hbest).
  by eexists _, results.
Qed.

(** Asking for fewer results gives the head of the longer answer: for
    [1 <= j <= k], [search(query, j)] is the first [j] results of
    [search(query, k)]. *)
Theorem search_fewer_is_prefix stored model query (j k : Z) :
  sorts_ascending np_argsort ->
  1 <= j <= k ->
  exists results,
    search (RegulatoryRetriever_init stored model) query k = Ok results /\
    search (RegulatoryRetriever_init stored model) query j
    = Ok (take (Z.to_nat j) results).
Proof.
  intros Hsort Hjk.
  destruct (search_ok stored model query k Hsort) as (results & Hres & HF).
  exists results. split; [done|].
  set (self := RegulatoryRetriever_init stored model) in *.
  set (sims := similarities self query) in *.
  unfold search. fold sims.
  assert (Htake : top_indices sims j = take (Z.to_nat j) (top_indices sims k)).
  { unfold top_indices, slice_from.
    destruct (Z.ltb_spec (- j) 0); [|lia].
    destruct (Z.ltb_spec (- k) 0); [|lia].
    rewrite firstn_rev, length_drop, drop_drop.
    f_equal. f_equal. lia. }
  rewrite Htake.
  apply (retrieve_Forall2 self sims _ (take (Z.to_nat j) results) []).
  by apply Forall2_take.
Qed.

(** With [top_k] at least the size of the corpus, [search] returns every
    chunk of the corpus exactly once. *)
Theorem search_large_top_k_returns_whole_corpus stored model query top_k :
  sorts_ascending np_argsort ->
  1 <= top_k ->
  Z.of_nat (length stored) <= top_k ->
  exists results,
    search (RegulatoryRetriever_init stored model) query top_k = Ok results /\
    Permutation results (map (result_of model query) stored).
Proof.
  intros Hsort Hk Hn.
  destruct (search_ranked stored model query top_k Hsort)
    as (results & Hres & HF).
  exists results. split; [done|].
  set (self := RegulatoryRetriever_init stored model) in *.
  set (sims := similarities self query) in *.
  destruct (Hsort sims) as [Hp _].
  assert (Hlen : length (np_argsort sims) = length stored).
  { apply Permutation_length in Hp. rewrite Hp, length_seq.
    unfold sims, self. apply similarities_length. }
  assert (Hranked : Permutation (top_indices sims top_k)
                                (seq 0 (length stored))).
  { unfold top_indices, slice_from.
    destruct (Z.ltb_spec (- top_k) 0); [|lia].
    replace (Z.to_nat (Z.max 0 (- top_k + Z.of_nat (length (np_argsort sims)))))
      with 0%nat by lia.
    rewrite drop_0, <- Permutation_rev, Hp.
    unfold sims, self. by rewrite similarities_length. }
  destruct (Permutation_Forall2 Hranked HF) as (results' & Hperm & HF').
  rewrite Hperm. clear - HF'.
  enough (results' = map (result_of model query) stored) as -> by done.
  apply Forall2_same_length_lookup in HF' as [Hlen HF'].
  rewrite length_seq in Hlen.
  apply (list_eq_same_length _ _ (length stored));
    [by rewrite length_map | done |].
  intros i x y Hi Hx Hy.
  destruct (HF' i i x) as (chunk & Hc & ->);
    [by apply lookup_seq_lt | done |].
  rewrite list_lookup_fmap, Hc in Hy. by injection Hy.
Qed.

End SearchMore.

(** * The context handed to the model *)

Lemma context_parts_of_app results context_parts :
  context_parts_of results context_parts
  = context_parts ++
    map (fun result =>
           "[" +:+ source result +:+ "]" +:+ NL +:+ text result +:+ NL)
        results.
Proof.
  revert context_parts.
  induction results as [|r results IH]; intros context_parts; simpl.
  - by rewrite app_nil_r.
  - rewrite IH. by rewrite <- app_assoc.
Qed.

Lemma str_join_cons sep part rest :
  rest <> [] -> str_join sep (part :: rest) = part +:+ sep +:+ str_join sep rest.
Proof. by destruct rest. Qed.

Lemma str_join_app sep (a b : list string) :
  a <> [] -> b <> [] ->
  str_join sep (a ++ b) = str_join sep a +:+ sep +:+ str_join sep b.
Proof.
  intros Ha Hb. induction a as [|part a IH]; [done|].
  destruct a as [|part' a].
  - simpl app. by rewrite str_join_cons.
  - change ((part :: part' :: a) ++ b) with (part :: (part' :: a) ++ b).
    rewrite str_join_cons by done. rewrite IH by done.
    rewrite (str_join_cons sep part (part' :: a)) by done.
    by rewrite !str_app_assoc.
Qed.

(** [format_context] writes each result as its source in brackets, a
    line break, its whole text and a line break, and puts one more line
    break between two results: the context of a list of results followed
    by other results is the context of the first list, a line break and
    the context of the others. *)
Theorem format_context_app self (result : SearchResult) rest more :
  more <> [] ->
  format_context self [result]
  = "[" +:+ source result +:+ "]" +:+ NL +:+ text result +:+ NL /\
  format_context self ((result :: rest) ++ more)
  = format_context self (result :: rest) +:+ NL +:+ format_context self more.
Proof.
  intros Hmore. split; [reflexivity|].
  unfold format_context.
  rewrite !context_parts_of_app, !app_nil_l, map_app.
  apply str_join_app; [by simpl | by destruct more].
Qed.

(** * The corpus *)

Section DocumentFacts.
Context {V : Type}.
Implicit Types (doc : gmap string V) (corpus : list (gmap string V)).

Lemma chunk_of_found doc chunk :
  chunk_of doc = Found chunk <->
  doc !! "content" = Some (stored_text chunk) /\
  doc !! "article_number"
  = Some (stored_article_number (stored_metadata chunk)) /\
  doc !! "source" = Some (stored_source (stored_metadata chunk)).
Proof.
  unfold chunk_of, getitem.
  destruct (doc !! "content") as [c|], (doc !! "article_number") as [n|],
    (doc !! "source") as [s|]; destruct chunk as [c' [n' s']]; simpl;
    split; try done; try (intros (? & ? & ?); done).
  - by intros [= <- <- <-].
  - by intros ([= <-] & [= <-] & [= <-]).
Qed.

Lemma chunk_of_has_fields doc :
  has_fields doc -> exists chunk, chunk_of doc = Found chunk.
Proof.
  intros ([c Hc] & [n Hn] & [s Hs]). unfold chunk_of, getitem.
  rewrite Hc, Hn, Hs. eauto.
Qed.

Lemma chunk_of_missing doc key :
  first_missing doc = Some key -> chunk_of doc = KeyError key.
Proof.
  unfold first_missing, chunk_of, getitem.
  destruct (doc !! "content"), (doc !! "article_number"), (doc !! "source");
    by intros [= <-].
Qed.

Lemma chunk_loop_found corpus : forall chunks,
  Forall has_fields corpus ->
  exists more,
    chunk_loop corpus chunks = Found (chunks ++ more) /\
    Forall2 (fun doc chunk => chunk_of doc = Found chunk) corpus more.
Proof.
  induction corpus as [|doc corpus IH]; intros chunks H; simpl.
  - exists []. by rewrite app_nil_r.
  - apply Forall_cons in H as [Hdoc H].
    destruct (chunk_of_has_fields doc Hdoc) as [chunk Hchunk].
    rewrite Hchunk. destruct (IH (chunks ++ [chunk]) H) as (more & -> & HF).
    exists (chunk :: more). split; [by rewrite <- app_assoc | by constructor].
Qed.

Lemma chunk_loop_missing good doc rest key : forall chunks,
  Forall has_fields good ->
  first_missing doc = Some key ->
  chunk_loop (good ++ doc :: rest) chunks = KeyError key.
Proof.
  induction good as [|d good IH]; intros chunks Hgood Hkey; simpl.
  - by rewrite (chunk_of_missing doc key).
  - apply Forall_cons in Hgood as [Hd Hgood].
    destruct (chunk_of_has_fields d Hd) as [chunk ->]. by apply IH.
Qed.

(** When every document has a content, an article number and a source,
    [chunk_documents] returns one chunk for each document, in the order of
    the corpus, with these three values of the document and nothing of its
    other keys; the processor keeps that list as its chunks, and one line
    with their number is printed. *)
Theorem chunk_documents_one_chunk_per_document
    (self : DocumentProcessor V) corpus stdout :
  Forall has_fields corpus ->
  exists chunks,
    chunk_documents self corpus stdout
    = (Found chunks,
       {| corpus_path := corpus_path self; processor_chunks := chunks |},
       stdout ++ [CHECK +:+ " Created "
                  +:+ str_int (Z.of_nat (length corpus)) +:+ " chunks"]) /\
    Forall2 (fun doc chunk =>
               doc !! "content" = Some (stored_text chunk) /\
               doc !! "article_number"
               = Some (stored_article_number (stored_metadata chunk)) /\
               doc !! "source" = Some (stored_source (stored_metadata chunk)))
            corpus chunks.
Proof.
  intros H. destruct (chunk_loop_found corpus [] H) as (chunks & Hloop & HF).
  exists chunks. unfold chunk_documents. rewrite Hloop. simpl.
  rewrite (Forall2_length _ _ _ HF). split; [done|].
  eapply Forall2_impl; [exact HF|]. intros doc chunk. apply chunk_of_found.
Qed.

(** When a document lacks one of the three keys, [chunk_documents] raises
    [KeyError] for the first key that the first such document lacks (in
    the order content, article number, source); it returns no chunk, the
    processor keeps the chunks it had, and nothing is printed. *)
Theorem chunk_documents_missing_key
    (self : DocumentProcessor V) good doc rest key stdout :
  Forall has_fields good ->
  first_missing doc = Some key ->
  chunk_documents self (good ++ doc :: rest) stdout
  = (KeyError key, self, stdout).
Proof.
  intros Hgood Hkey. unfold chunk_documents.
  by rewrite (chunk_loop_missing good doc rest key [] Hgood Hkey).
Qed.

End DocumentFacts.

(** * More on the validator *)

Lemma beyond_tolerance_same (x : float) : beyond_tolerance x x = false.
Proof.
  unfold beyond_tolerance, sub, abs, ltb.
  destruct x as [[]|[]| |s m e]; try reflexivity.
  unfold SFsub. rewrite Z.min_id, Z.sub_diag. reflexivity.
Qed.

Lemma beyond_tolerance_nan_r (x : float) : beyond_tolerance x S754_nan = false.
Proof. by destruct x. Qed.

Lemma beyond_tolerance_of_zero (x : float) :
  beyond_tolerance (to_float (Int 0)) x = ltb lit_0_01 (abs x).
Proof. by destruct x as [[]|[]| |[] m e]. Qed.

Lemma rows_violations_nil `{Python} (rs : list CR1Row) : forall i,
  rows_violations i rs = [] <-> Forall (fun r => row_violations r = []) rs.
Proof.
  induction rs as [|r rs IH]; intros i; simpl.
  - split; [constructor | done].
  - rewrite Forall_cons, <- (IH (S i)). split.
    + intros [H1 H2]%app_eq_nil. split; [|done].
      by destruct (row_violations r).
    + intros [-> ->]. done.
Qed.

Section ValidatorMore.
Context {py : Python}.

(** A row whose declared RWA is what [calculate_rwa] returns for it never
    gets an RWA mismatch: [validate_row] reports only what is wrong with
    its exposure and its risk weight. *)
Theorem validate_row_accepts_calculated_rwa self row r ws h :
  rows_of h !! row = Some r ->
  lists_of h !! warnings self = Some ws ->
  calculate_rwa row h = (Ok (risk_weighted_assets r), h) ->
  let exposure := original_exposure_value r in
  let weight := risk_weight_percent r in
  let rwa := risk_weighted_assets r in
  exists errs h',
    validate_row self row h = (Ok errs, h') /\
    errs = map (error_text exposure weight rwa)
               (List.filter (violated exposure weight rwa)
                            [ExposurePositive; WeightInRange]) /\
    error_text exposure weight rwa RwaConsistent ∉ errs.
Proof.
  intros Hrow Hws Hcalc exposure weight rwa.
  assert (Hw : weight_in_float_range r = true /\
               rwa = expected_rwa exposure weight).
  { unfold calculate_rwa in Hcalc.
    erewrite bind_ok in Hcalc; [|unfold get_row; by rewrite Hrow].
    unfold mbind, M_bind, lift, int_truediv, weight_in_float_range in *.
    destruct (is_inf (div (of_Z (risk_weight_percent r)) (of_Z 100)));
      [done|]. split; [done|]. by injection Hcalc. }
  destruct Hw as [Hw Hrwa].
  eexists _, _. split; [by apply validate_row_ok|].
  assert (Hno : violated exposure weight rwa RwaConsistent = false).
  { simpl. rewrite <- Hrwa. apply beyond_tolerance_same. }
  unfold row_violations, violations. fold exposure weight rwa.
  cbn [List.filter]. rewrite Hno.
  split.
  - by destruct (violated exposure weight rwa ExposurePositive),
      (violated exposure weight rwa WeightInRange).
  - intros Hin.
    destruct (violated exposure weight rwa ExposurePositive),
      (violated exposure weight rwa WeightInRange); cbn [map] in Hin;
      repeat (apply elem_of_cons in Hin as [Hin|Hin];
              [apply error_text_inj in Hin; discriminate Hin|]);
      by apply not_elem_of_nil in Hin.
Qed.

(** A NaN passes: a row whose exposure is a NaN and whose risk weight is
    within 0 to 1250 gets no error at all from [validate_row], whatever
    RWA it declares. *)
Theorem validate_row_accepts_nan_exposure self row r ws h :
  rows_of h !! row = Some r ->
  lists_of h !! warnings self = Some ws ->
  original_exposure_value r = S754_nan ->
  0 <= risk_weight_percent r <= 1250 ->
  exists h', validate_row self row h = (Ok [], h').
Proof.
  intros Hrow Hws Hnan Hw.
  eexists. rewrite (validate_row_ok self row r ws h Hrow Hws)
    by by apply schema_weight_in_float_range.
  f_equal. f_equal. unfold row_violations, violations. rewrite Hnan.
  cbn [List.filter violated].
  replace (negb ((0 <=? risk_weight_percent r)
                 && (risk_weight_percent r <=? 1250))) with false by
    (symmetry; apply negb_false_iff, andb_true_iff; split;
     apply Z.leb_le; lia).
  assert (Hexp : expected_rwa S754_nan (risk_weight_percent r) = S754_nan)
    by reflexivity.
  rewrite Hexp, beyond_tolerance_nan_r. reflexivity.
Qed.

(** A template whose declared totals are the sums over its rows, as the
    application builds it, gets no error for its totals: the errors of
    [validate_template] are those of the rows, and the template is valid
    exactly when no row has an error. *)
Theorem validate_template_summed_totals self template t rs ws h :
  templates_of h !! template = Some t ->
  Forall2 (fun l r => rows_of h !! l = Some r) (rows t) rs ->
  lists_of h !! warnings self = Some ws ->
  Forall (fun r => weight_in_float_range r = true) rs ->
  total_exposure t = to_float (py_sum (map original_exposure_value rs)) ->
  total_rwa t = to_float (py_sum (map risk_weighted_assets rs)) ->
  exists report h',
    validate_template self template h = (Ok report, h') /\
    report_errors report = rows_violations 0 rs /\
    (is_valid report = true <->
     Forall (fun r => row_violations r = []) rs).
Proof.
  intros Ht Hrows Hws Hw He Hr.
  eexists _, _. split; [by eapply validate_template_ok|]. simpl.
  assert (Htot : totals_violations rs t = []).
  { unfold totals_violations. rewrite He, Hr.
    by rewrite !beyond_tolerance_same. }
  rewrite Htot, app_nil_r. split; [done|].
  rewrite Nat.eqb_eq, length_zero_iff_nil. apply rows_violations_nil.
Qed.

(** A template of no row: [validate_template] adds no warning and leaves
    the store as it was, and it finds the template valid exactly when
    neither declared total is more than 0.01 away from 0. *)
Theorem validate_template_no_rows self template t ws h :
  templates_of h !! template = Some t ->
  rows t = [] ->
  lists_of h !! warnings self = Some ws ->
  exists report,
    validate_template self template h = (Ok report, h) /\
    is_valid report
    = negb (ltb lit_0_01 (abs (total_exposure t)))
      && negb (ltb lit_0_01 (abs (total_rwa t))).
Proof.
  intros Ht Hnil Hws.
  assert (Hrows : Forall2 (fun l r => rows_of h !! l = Some r) (rows t) [])
    by (rewrite Hnil; constructor).
  eexists. rewrite (validate_template_ok self template t [] ws h Ht Hrows Hws)
    by constructor.
  simpl. rewrite app_nil_r, set_lists_id_insert by done.
  split; [done|]. simpl. unfold totals_violations. simpl.
  rewrite !beyond_tolerance_of_zero.
  by destruct (ltb lit_0_01 (abs (total_exposure t))),
    (ltb lit_0_01 (abs (total_rwa t))).
Qed.

End ValidatorMore.

(** * The validator's lists *)

Lemma writes_only_ret {A} l (a : A) : writes_only l (mret a).
Proof. by intros h l' _. Qed.

Lemma writes_only_lift {A} l (r : Result A) : writes_only l (lift r).
Proof. by intros h l' _. Qed.

Lemma writes_only_bind {A B} l (m : M A) (f : A -> M B) :
  writes_only l m -> (forall a, writes_only l (f a)) ->
  writes_only l (m ≫= f).
Proof.
  intros Hm Hf h l' Hne. unfold mbind, M_bind.
  specialize (Hm h l' Hne). destruct (m h) as [[a|e] h1]; simpl in *.
  - by rewrite (Hf a h1 l' Hne).
  - done.
Qed.

Lemma writes_only_get_row l row : writes_only l (get_row row).
Proof. intros h l' _. unfold get_row. by destruct (rows_of h !! row). Qed.

Lemma writes_only_get_template l t : writes_only l (get_template t).
Proof.
  intros h l' _. unfold get_template. by destruct (templates_of h !! t).
Qed.

Lemma writes_only_list_append l s : writes_only l (list_append l s).
Proof.
  intros h l' Hne. unfold list_append.
  destruct (lists_of h !! l); simpl; [|done].
  by rewrite lookup_insert_ne.
Qed.

Section ListsOfValidator.
Context {py : Python}.

Lemma writes_only_fields_of l field locs :
  writes_only l (fields_of field locs).
Proof.
  induction locs as [|row locs IH]; simpl; [apply writes_only_ret|].
  apply writes_only_bind; [apply writes_only_get_row|]. intros r.
  apply writes_only_bind; [exact IH|]. intros items. apply writes_only_ret.
Qed.

Lemma writes_only_validate_row self row :
  writes_only (warnings self) (validate_row self row).
Proof.
  unfold validate_row, calculate_rwa.
  apply writes_only_bind; [apply writes_only_get_row|]. intros r.
  apply writes_only_bind.
  { apply writes_only_bind; [apply writes_only_get_row|]. intros r'.
    apply writes_only_bind; [apply writes_only_lift|]. intros q.
    apply writes_only_ret. }
  intros x. apply writes_only_bind; [|intros; apply writes_only_ret].
  destruct (regulatory_references r);
    [apply writes_only_list_append | apply writes_only_ret].
Qed.

Lemma writes_only_validate_rows self locs : forall i all_errors,
  writes_only (warnings self) (validate_rows self i locs all_errors).
Proof.
  induction locs as [|row locs IH]; intros i all_errors; simpl;
    [apply writes_only_ret|].
  apply writes_only_bind; [apply writes_only_validate_row|].
  intros errs. apply IH.
Qed.

Lemma writes_only_validate_template self template :
  writes_only (warnings self) (validate_template self template).
Proof.
  unfold validate_template, validate_totals.
  apply writes_only_bind; [apply writes_only_get_template|]. intros t.
  apply writes_only_bind; [apply writes_only_validate_rows|]. intros errs.
  apply writes_only_bind; [|intros; apply writes_only_ret].
  apply writes_only_bind; [apply writes_only_get_template|]. intros t'.
  apply writes_only_bind; [apply writes_only_fields_of|]. intros es.
  apply writes_only_bind; [apply writes_only_fields_of|]. intros rs.
  apply writes_only_ret.
Qed.

(** [validate_template] writes to one list only, the validator's
    [warnings]: every other list of the store, the validator's own
    [errors] and the lists of other validators among them, is after the
    call what it was before, whatever the call returns or raises. *)
Theorem validate_template_writes_only_warnings self template h l :
  l <> warnings self ->
  lists_of (validate_template self template h).2 !! l = lists_of h !! l.
Proof. intros Hne. by apply writes_only_validate_template. Qed.



End ListsOfValidator.

Lemma CR1Validator_init_eq h :
  let e := fresh (dom (lists_of h)) in
  let w := fresh (dom (<[e := []]> (lists_of h))) in
  CR1Validator_init h
  = (Ok {| errors := e; warnings := w |},
     set_lists (insert w []) (set_lists (insert e []) h)) /\
  e <> w /\ lists_of h !! e = None /\ lists_of h !! w = None.
Proof.
  intros e w.
  assert (He : e ∉ dom (lists_of h)) by apply is_fresh.
  assert (Hw : w ∉ dom (<[e := []]> (lists_of h))) by apply is_fresh.
  rewrite dom_insert_L in Hw.
  split_and!; [reflexivity | | |].
  - intros Heq. apply Hw. rewrite <- Heq. set_solver.
  - by apply not_elem_of_dom.
  - apply not_elem_of_dom. set_solver.
Qed.

(** [CR1Validator()] makes two new, empty lists: they are different from
    each other and from every list there was, which it leaves as it was,
    like the rows and the templates. *)
Theorem validator_init_makes_new_lists h :
  exists self h',
    CR1Validator_init h = (Ok self, h') /\
    errors self <> warnings self /\
    lists_of h !! errors self = None /\
    lists_of h !! warnings self = None /\
    lists_of h' = <[warnings self := []]> (<[errors self := []]> (lists_of h)) /\
    rows_of h' = rows_of h /\ templates_of h' = templates_of h.
Proof.
  destruct (CR1Validator_init_eq h) as (Hinit & Hne & He & Hw).
  eexists _, _. split; [exact Hinit|]. by split_and!.
Qed.

(** Two validators share nothing: what [validate_template] records
    through the first of two validators made one after the other does not
    show in the second, whose [warnings] stays empty. *)
Theorem validators_do_not_share `{Python} template h :
  exists first second h',
    two_validators h = (Ok (first, second), h') /\
    warnings first <> warnings second /\
    lists_of (validate_template first template h').2 !! warnings second
    = Some [].
Proof.
  destruct (CR1Validator_init_eq h) as (Hv1 & _ & _ & Hw1).
  set (h1 := set_lists _ (set_lists _ h)) in Hv1.
  destruct (CR1Validator_init_eq h1) as (Hv2 & _ & _ & Hw2).
  eexists _, _, _. unfold two_validators.
  erewrite bind_ok; [|exact Hv1]. erewrite bind_ok; [|exact Hv2].
  split; [done|]. cbn [warnings].
  set (w1 := fresh (dom (<[fresh (dom (lists_of h)) := []]> (lists_of h))))
    in *.
  set (w2 := fresh (dom (<[fresh (dom (lists_of h1)) := []]> (lists_of h1))))
    in *.
  assert (Hne : w2 <> w1).
  { intros Heq. rewrite Heq in Hw2. subst h1. simpl in Hw2.
    by rewrite lookup_insert_eq in Hw2. }
  split; [done|].
  rewrite (writes_only_validate_template
             {| errors := fresh (dom (lists_of h)); warnings := w1 |}
             template _ w2 Hne).
  simpl. by rewrite lookup_insert_eq.
Qed.

Lemma row_sections_app rs more_rs : forall i,
  row_sections i (rs ++ more_rs)
  = row_sections i rs +:+ row_sections (length rs + i) more_rs.
Proof.
  induction rs as [|r rs IH]; intros i.
  - done.
  - change (row_section i r +:+ row_sections (S i) (rs ++ more_rs)
            = (row_section i r +:+ row_sections (S i) rs)
              +:+ row_sections (S (length rs + i)) more_rs).
    rewrite IH, str_app_assoc. by rewrite Nat.add_succ_r.
Qed.

(** The trail of a longer list of rows is the trail of its first rows
    followed by the sections of the others, numbered on from there: more
    rows change nothing in the text of the earlier ones.  (The rows are
    rows with a risk weight that can be written, of at most 4300
    digits.) *)
Theorem generate_audit_trail_app self locs rs more_locs more_rs h :
  Forall2 (fun l r => rows_of h !! l = Some r) locs rs ->
  Forall2 (fun l r => rows_of h !! l = Some r) more_locs more_rs ->
  Forall (fun r => weight_has_text r = true) rs ->
  Forall (fun r => weight_has_text r = true) more_rs ->
  exists trail,
    generate_audit_trail self locs h = (Ok trail, h) /\
    generate_audit_trail self (locs ++ more_locs) h
    = (Ok (trail +:+ row_sections (S (length rs)) more_rs), h).
Proof.
  intros Hrows Hmore Hw Hw_more. eexists. split.
  - unfold generate_audit_trail.
    by rewrite (trail_rows_sections locs rs h _ _ Hrows Hw).
  - unfold generate_audit_trail.
    pose proof (Forall2_app Hrows Hmore) as Hall.
    rewrite (trail_rows_sections _ _ h _ _ Hall) by by apply Forall_app.
    rewrite row_sections_app, str_app_assoc.
    by rewrite Nat.add_1_r.
Qed.

(** * The properties at the sample data *)

Lemma search_results_are_distinct_chunks_witness :
  sorts_ascending insertion_argsort /\
  exists ranked results,
    @search numpy_scalar (RegulatoryRetriever_init corpus3 letter_embedder)
            "residential mortgage" 2
    = Ok results /\
    NoDup ranked /\
    Forall2 (fun idx r =>
               exists chunk, corpus3 !! idx = Some chunk /\
                 r = @result_of numpy_scalar letter_embedder
                       "residential mortgage" chunk)
            ranked results.
Proof.
  split; [exact insertion_argsort_sorts|].
  exact (@search_results_are_distinct_chunks numpy_scalar corpus3
           letter_embedder "residential mortgage" 2 insertion_argsort_sorts).
Defined.

Lemma search_leaves_out_only_lower_scores_witness :
  sorts_ascending insertion_argsort /\
  exists ranked results,
    @search numpy_scalar (RegulatoryRetriever_init corpus3 letter_embedder)
            "residential mortgage" 1
    = Ok results /\
    Forall2 (fun idx r =>
               exists chunk, corpus3 !! idx = Some chunk /\
                 r = @result_of numpy_scalar letter_embedder
                       "residential mortgage" chunk)
            ranked results /\
    forall i chunk r,
      corpus3 !! i = Some chunk -> i ∉ ranked -> r ∈ results ->
      np_lt (relevance_score r)
            (relevance_score (@result_of numpy_scalar letter_embedder
                                "residential mortgage" chunk))
      = false.
Proof.
  split; [exact insertion_argsort_sorts|].
  exact (@search_leaves_out_only_lower_scores numpy_scalar corpus3
           letter_embedder "residential mortgage" 1 insertion_argsort_sorts).
Defined.

Lemma search_fewer_is_prefix_witness :
  sorts_ascending insertion_argsort /\ 1 <= 2 <= 3 /\
  exists results,
    @search numpy_scalar (RegulatoryRetriever_init corpus3 letter_embedder)
            "unrated corporate exposure" 3
    = Ok results /\
    @search numpy_scalar (RegulatoryRetriever_init corpus3 letter_embedder)
            "unrated corporate exposure" 2
    = Ok (take (Z.to_nat 2) results).
Proof.
  split; [exact insertion_argsort_sorts|]. split; [lia|].
  apply (@search_fewer_is_prefix numpy_scalar corpus3 letter_embedder
           "unrated corporate exposure" 2 3);
    [exact insertion_argsort_sorts | lia].
Defined.

Lemma search_large_top_k_returns_whole_corpus_witness :
  sorts_ascending insertion_argsort /\ 1 <= 5 /\
  Z.of_nat (length corpus3) <= 5 /\
  exists results,
    @search numpy_scalar (RegulatoryRetriever_init corpus3 letter_embedder)
            "unrated corporate exposure" 5
    = Ok results /\
    Permutation results
      (map (@result_of numpy_scalar letter_embedder
              "unrated corporate exposure") corpus3).
Proof.
  split; [exact insertion_argsort_sorts|]. split; [lia|].
  split; [simpl; lia|].
  apply (@search_large_top_k_returns_whole_corpus numpy_scalar corpus3
           letter_embedder "unrated corporate exposure" 5);
    [exact insertion_argsort_sorts | lia | simpl; lia].
Defined.

Lemma format_context_app_witness :
  [second_result] <> [] /\
  format_context (RegulatoryRetriever_init corpus3 letter_embedder)
                 [first_result]
  = "[" +:+ source first_result +:+ "]" +:+ NL
    +:+ text first_result +:+ NL /\
  format_context (RegulatoryRetriever_init corpus3 letter_embedder)
                 ((first_result :: []) ++ [second_result])
  = format_context (RegulatoryRetriever_init corpus3 letter_embedder)
                   (first_result :: [])
    +:+ NL
    +:+ format_context (RegulatoryRetriever_init corpus3 letter_embedder)
                       [second_result].
Proof.
  split; [discriminate|].
  apply (format_context_app
           (RegulatoryRetriever_init corpus3 letter_embedder)
           first_result [] [second_result]).
  discriminate.
Defined.

Example format_context_two_results :
  format_context (RegulatoryRetriever_init corpus3 letter_embedder)
                 [first_result; second_result]
  = "[Article 122]" +:+ NL +:+ "corporate exposures" +:+ NL +:+ NL
    +:+ "[Article 125]" +:+ NL +:+ "residential mortgages" +:+ NL.
Proof. reflexivity. Qed.

Example format_context_no_result :
  format_context (RegulatoryRetriever_init corpus3 letter_embedder) [] = "".
Proof. reflexivity. Qed.

Lemma sample_corpus_has_fields : Forall has_fields sample_corpus.
Proof. repeat constructor; eexists; vm_compute; reflexivity. Qed.

Lemma chunk_documents_one_chunk_per_document_witness :
  Forall has_fields sample_corpus /\
  exists chunks,
    chunk_documents (DocumentProcessor_init "data/raw/sample_pra_corpus.json")
                    sample_corpus []
    = (Found chunks,
       {| corpus_path :=
            corpus_path
              (DocumentProcessor_init (V := json)
                 "data/raw/sample_pra_corpus.json");
          processor_chunks := chunks |},
       [] ++ [CHECK +:+ " Created "
              +:+ str_int (Z.of_nat (length sample_corpus)) +:+ " chunks"]) /\
    Forall2 (fun doc chunk =>
               doc !! "content" = Some (stored_text chunk) /\
               doc !! "article_number"
               = Some (stored_article_number (stored_metadata chunk)) /\
               doc !! "source" = Some (stored_source (stored_metadata chunk)))
            sample_corpus chunks.
Proof.
  split; [exact sample_corpus_has_fields|].
  exact (chunk_documents_one_chunk_per_document
           (DocumentProcessor_init "data/raw/sample_pra_corpus.json")
           sample_corpus [] sample_corpus_has_fields).
Defined.

Lemma chunk_documents_missing_key_witness :
  Forall has_fields sample_corpus /\
  first_missing unsourced_doc = Some "source" /\
  chunk_documents (DocumentProcessor_init "data/raw/sample_pra_corpus.json")
                  (sample_corpus ++ unsourced_doc :: sample_corpus) []
  = (KeyError "source",
     DocumentProcessor_init "data/raw/sample_pra_corpus.json", []).
Proof.
  split; [exact sample_corpus_has_fields|]. split; [reflexivity|].
  apply chunk_documents_missing_key;
    [exact sample_corpus_has_fields | reflexivity].
Defined.

Example chunk_documents_sample :
  (chunk_documents (DocumentProcessor_init "corpus.json") sample_corpus []).1.1
  = Found
      [ {| stored_text := JStr "corporate exposures";
           stored_metadata :=
             {| stored_article_number := JInt 122;
                stored_source := JStr "PRA Rulebook Article 122" |} |};
        {| stored_text := JStr "residential mortgages";
           stored_metadata :=
             {| stored_article_number := JInt 125;
                stored_source := JStr "PRA Rulebook Article 125" |} |} ].
Proof. vm_compute. reflexivity. Qed.

Lemma validate_row_accepts_calculated_rwa_witness :
  rows_of sample_heap !! 0%nat = Some corporate_row /\
  lists_of sample_heap !! warnings sample_validator = Some [] /\
  calculate_rwa 0%nat sample_heap
  = (Ok (risk_weighted_assets corporate_row), sample_heap) /\
  let exposure := original_exposure_value corporate_row in
  let weight := risk_weight_percent corporate_row in
  let rwa := risk_weighted_assets corporate_row in
  exists errs h',
    validate_row sample_validator 0%nat sample_heap = (Ok errs, h') /\
    errs = map (error_text exposure weight rwa)
               (List.filter (violated exposure weight rwa)
                            [ExposurePositive; WeightInRange]) /\
    error_text exposure weight rwa RwaConsistent ∉ errs.
Proof.
  split_and!; [reflexivity..|].
  apply (validate_row_accepts_calculated_rwa sample_validator 0%nat
           corporate_row [] sample_heap); reflexivity.
Defined.

Lemma validate_row_accepts_nan_exposure_witness :
  rows_of nan_heap !! 2%nat = Some nan_row /\
  lists_of nan_heap !! warnings sample_validator = Some [] /\
  original_exposure_value nan_row = S754_nan /\
  0 <= risk_weight_percent nan_row <= 1250 /\
  exists h', validate_row sample_validator 2%nat nan_heap = (Ok [], h').
Proof.
  split_and!; [reflexivity | reflexivity | reflexivity | simpl; lia
              | simpl; lia |].
  apply (validate_row_accepts_nan_exposure sample_validator 2%nat nan_row
           [] nan_heap); [reflexivity..| simpl; lia].
Defined.

Lemma validate_template_summed_totals_witness :
  templates_of sample_heap !! 0%nat = Some sample_template /\
  Forall2 (fun l r => rows_of sample_heap !! l = Some r)
          (rows sample_template) [corporate_row; mortgage_row] /\
  lists_of sample_heap !! warnings sample_validator = Some [] /\
  Forall (fun r => weight_in_float_range r = true)
         [corporate_row; mortgage_row] /\
  total_exposure sample_template
  = to_float (@py_sum sum_left_to_right
                (map original_exposure_value [corporate_row; mortgage_row])) /\
  total_rwa sample_template
  = to_float (@py_sum sum_left_to_right
                (map risk_weighted_assets [corporate_row; mortgage_row])) /\
  exists report h',
    @validate_template sum_left_to_right sample_validator 0%nat sample_heap
    = (Ok report, h') /\
    report_errors report = rows_violations 0 [corporate_row; mortgage_row] /\
    (is_valid report = true <->
     Forall (fun r => row_violations r = []) [corporate_row; mortgage_row]).
Proof.
  assert (Hrows : Forall2 (fun l r => rows_of sample_heap !! l = Some r)
                    (rows sample_template) [corporate_row; mortgage_row])
    by (repeat constructor).
  assert (Hw : Forall (fun r => weight_in_float_range r = true)
                      [corporate_row; mortgage_row])
    by (repeat constructor).
  split_and!;
    [reflexivity | exact Hrows | reflexivity | exact Hw
    | reflexivity | reflexivity |].
  apply (@validate_template_summed_totals sum_left_to_right sample_validator
           0%nat sample_template [corporate_row; mortgage_row] []
           sample_heap);
    [reflexivity | exact Hrows | reflexivity | exact Hw
    | reflexivity | reflexivity].
Defined.

Lemma validate_template_no_rows_witness :
  templates_of empty_template_heap !! 0%nat = Some empty_template /\
  rows empty_template = [] /\
  lists_of empty_template_heap !! warnings sample_validator = Some [] /\
  exists report,
    @validate_template sum_left_to_right sample_validator 0%nat
      empty_template_heap
    = (Ok report, empty_template_heap) /\
    is_valid report
    = negb (ltb lit_0_01 (abs (total_exposure empty_template)))
      && negb (ltb lit_0_01 (abs (total_rwa empty_template))).
Proof.
  split_and!; [reflexivity..|].
  apply (@validate_template_no_rows sum_left_to_right sample_validator 0%nat
           empty_template [] empty_template_heap); reflexivity.
Defined.

Lemma validate_template_writes_only_warnings_witness :
  errors sample_validator <> warnings sample_validator /\
  lists_of (@validate_template sum_left_to_right sample_validator 0%nat
              sample_heap).2 !! errors sample_validator
  = lists_of sample_heap !! errors sample_validator.
Proof.
  split; [discriminate|].
  apply (@validate_template_writes_only_warnings sum_left_to_right
           sample_validator 0%nat sample_heap (errors sample_validator)).
  discriminate.
Defined.


Lemma generate_audit_trail_app_witness :
  Forall2 (fun l r => rows_of sample_heap !! l = Some r)
          [0%nat] [corporate_row] /\
  Forall2 (fun l r => rows_of sample_heap !! l = Some r)
          [2; 1]%nat [broken_row; mortgage_row] /\
  Forall (fun r => weight_has_text r = true) [corporate_row] /\
  Forall (fun r => weight_has_text r = true) [broken_row; mortgage_row] /\
  exists trail,
    generate_audit_trail sample_validator [0%nat] sample_heap
    = (Ok trail, sample_heap) /\
    generate_audit_trail sample_validator ([0%nat] ++ [2; 1]%nat) sample_heap
    = (Ok (trail +:+ row_sections (S (length [corporate_row]))
                       [broken_row; mortgage_row]),
       sample_heap).
Proof.
  assert (H1 : Forall2 (fun l r => rows_of sample_heap !! l = Some r)
                 [0%nat] [corporate_row]) by (repeat constructor).
  assert (H2 : Forall2 (fun l r => rows_of sample_heap !! l = Some r)
                 [2; 1]%nat [broken_row; mortgage_row])
    by (repeat constructor).
  assert (H3 : Forall (fun r => weight_has_text r = true) [corporate_row])
    by (repeat constructor; vm_compute; reflexivity).
  assert (H4 : Forall (fun r => weight_has_text r = true)
                      [broken_row; mortgage_row])
    by (repeat constructor; vm_compute; reflexivity).
  split_and!; [exact H1 | exact H2 | exact H3 | exact H4 |].
  exact (generate_audit_trail_app sample_validator [0%nat] [corporate_row]
           [2; 1]%nat [broken_row; mortgage_row] sample_heap H1 H2 H3 H4).
Defined.
